(** * Select Matching Features: a shallow embedding of the plugin core

    The plugin is glue over the vector-layer object of its host.  The
    development below embeds, function by function,

    - [utils/operators.py]         (module [OperatorManager]),
    - [core/expression_builder.py] (module [ExpressionBuilder]),
    - [utils/settings_manager.py]  (module [SettingsManager]),
    - [core/selection_manager.py]  (module [SelectionManager]),

    over an in-memory double of the host layer that records every host
    call and may refuse any of them, and then states the properties of the
    specification. *)

From Stdlib Require Import ZArith List String Ascii Bool Lia DecimalString.
From Stdlib Require Import DecimalZ.
From stdpp Require Import gmap strings list fin_maps.

Import ListNotations.
Local Open Scope string_scope.
Local Open Scope Z_scope.

(** ** Python values and strings *)

Module Py.

(** The values a field of a feature can hold as seen from Python: [None],
    a [str], an [int], or the host's null variant (an object whose
    [isNull()] answers true, printed [NULL] by the host bindings). *)
Inductive value : Type :=
| None_
| Str (s : string)
| Int (z : Z)
| QNull.

(** The exceptions that the embedded code can meet; [RuntimeError] is
    what the host raises when it refuses a call. *)
Inductive exn : Type :=
| IndexError (msg : string)
| KeyError (key : string)
| AttributeError (msg : string)
| ValueError (msg : string)
| RuntimeError (msg : string).

(** A computation either returns or raises. *)
Inductive outcome (A : Type) : Type :=
| Returned (a : A)
| Raised (e : exn).
Arguments Returned {A} a.
Arguments Raised {A} e.

(** [str(n)] for an [int]: its decimal numeral. *)
Definition str_of_Z (z : Z) : string := NilEmpty.string_of_int (Z.to_int z).

(** [str(v)]. *)
Definition str (v : value) : string :=
  match v with
  | None_ => "None"
  | Str s => s
  | Int z => str_of_Z z
  | QNull => "NULL"
  end.

(** [type(v).__name__], as it shows in an [AttributeError]. *)
Definition type_name (v : value) : string :=
  match v with
  | None_ => "NoneType"
  | Str _ => "str"
  | Int _ => "int"
  | QNull => "QVariant"
  end.

(** [str(e)] for an exception; a [KeyError] prints its key quoted. *)
Definition str_of_exn (e : exn) : string :=
  match e with
  | IndexError m | AttributeError m | ValueError m | RuntimeError m => m
  | KeyError k => "'" ++ k ++ "'"
  end.

(** [s.startswith(p)]. *)
Fixpoint startswith (p s : string) : bool :=
  match p, s with
  | EmptyString, _ => true
  | String a p', String b s' => if Ascii.eqb a b then startswith p' s' else false
  | String _ _, EmptyString => false
  end.

(** [s.replace(old, new)] for a non-empty [old]: leftmost occurrences,
    not overlapping.  [skip] counts the characters of a match that are
    still to be stepped over. *)
Fixpoint replace_from (skip : nat) (old new s : string) : string :=
  match s with
  | EmptyString => EmptyString
  | String c s' =>
      match skip with
      | S k => replace_from k old new s'
      | O =>
          if startswith old s
          then new ++ replace_from (String.length old - 1) old new s'
          else String c (replace_from O old new s')
      end
  end.

Definition replace (old new s : string) : string := replace_from O old new s.

(** [sep.join(parts)]. *)
Fixpoint join (sep : string) (parts : list string) : string :=
  match parts with
  | [] => EmptyString
  | [p] => p
  | p :: rest => p ++ sep ++ join sep rest
  end.

(** The double-quote character, as a one-character string. *)
Definition dquote : string := String (Ascii.ascii_of_nat 34) EmptyString.

(** [s[:n]]. *)
Definition take (n : nat) (s : string) : string := String.substring 0 n s.

(** [v.replace(old, new)] on a value: only a [str] has the method. *)
Definition value_replace (old new : string) (v : value) : outcome string :=
  match v with
  | Str s => Returned (replace old new s)
  | _ => Raised (AttributeError
                   ("'" ++ type_name v ++ "' object has no attribute 'replace'"))
  end.

(** [[f(x) for x in xs]] where [f] may raise: the first failure ends it. *)
Fixpoint comprehension {A B : Type} (f : A -> outcome B) (xs : list A)
  : outcome (list B) :=
  match xs with
  | [] => Returned []
  | x :: rest =>
      match f x with
      | Raised e => Raised e
      | Returned y =>
          match comprehension f rest with
          | Raised e => Raised e
          | Returned ys => Returned (y :: ys)
          end
      end
  end.

End Py.

(** ** utils/operators.py *)

Module OperatorManager.

(** One entry of the [OPERATORS] table. *)
Record entry : Type := Entry {
  symbol : string;
  name : string;
  sql_null : option string
}.

Definition OPERATORS : gmap string entry :=
  <["=" := Entry "=" "Equal" (Some "IS NULL")]>
  (<["!=" := Entry "!=" "Not Equal" (Some "IS NOT NULL")]>
  (<["<" := Entry "<" "Less Than" None]>
  (<[">" := Entry ">" "Greater Than" None]>
  (<["<=" := Entry "<=" "Less or Equal" None]>
  (<[">=" := Entry ">=" "Greater or Equal" None]> ∅))))).

(** [cls.OPERATORS.get(operator, {}).get('sql_null')] *)
Definition get_null_sql (operator : string) : option string :=
  match OPERATORS !! operator with
  | Some e => sql_null e
  | None => None
  end.

(** [... .get('sql_null') is not None] *)
Definition is_null_compatible (operator : string) : bool :=
  match get_null_sql operator with
  | Some _ => true
  | None => false
  end.

(** [operator in cls.OPERATORS] *)
Definition validate_operator (operator : string) : bool :=
  bool_decide (is_Some (OPERATORS !! operator)).

(** [cls.OPERATORS.get(operator, {}).get('name', operator)] *)
Definition get_operator_name (operator : string) : string :=
  match OPERATORS !! operator with
  | Some e => name e
  | None => operator
  end.

End OperatorManager.

(** ** core/expression_builder.py *)

Module ExpressionBuilder.

Definition _build_null_expression (field_name operator : string)
  : Py.outcome (string * string) :=
  if negb (OperatorManager.is_null_compatible operator) then
    Py.Raised (Py.ValueError
      ("Operator '" ++ operator ++ "' cannot be used with NULL values. "
       ++ "Only '=' (IS NULL) and '!=' (IS NOT NULL) are supported."))
  else
    let null_sql :=
      match OperatorManager.get_null_sql operator with
      | Some s => s
      | None => "None"
      end in
    let expr := Py.dquote ++ field_name ++ Py.dquote ++ " " ++ null_sql in
    Py.Returned (expr, "NULL").

Definition _build_string_expression (field_name operator value : string)
  : Py.outcome (string * string) :=
  let escaped_value := Py.replace "'" "''" value in
  let expr := Py.dquote ++ field_name ++ Py.dquote ++ " " ++ operator ++ " '" ++ escaped_value ++ "'" in
  let display_value := "'" ++ value ++ "'" in
  Py.Returned (expr, display_value).

Definition _build_numeric_expression (field_name operator : string) (value : Py.value)
  : Py.outcome (string * string) :=
  let expr := Py.dquote ++ field_name ++ Py.dquote ++ " " ++ operator ++ " " ++ Py.str value in
  let display_value := Py.str value in
  Py.Returned (expr, display_value).

Definition build_expression (field_name operator : string) (value : Py.value)
  : Py.outcome (string * string) :=
  match value with
  | Py.None_ => _build_null_expression field_name operator
  | Py.Str s => _build_string_expression field_name operator s
  | _ => _build_numeric_expression field_name operator value
  end.

End ExpressionBuilder.

(** ** utils/settings_manager.py *)

Module SettingsManager.

(** What the host's settings facility stores under a key. *)
Inductive qvalue : Type :=
| QStr (s : string)
| QBool (b : bool).

Definition KEY_CURRENT_LAYER : string := "/SelectMatchingFeatures/currentLayer".
Definition KEY_CURRENT_FIELD : string := "/SelectMatchingFeatures/currentField".
Definition KEY_HIDE_NON_MATCHING : string := "/SelectMatchingFeatures/hideNonMatching".
Definition KEY_SELECT_FILTERED : string := "/SelectMatchingFeatures/selectFiltered".
Definition KEY_OPERATOR : string := "/SelectMatchingFeatures/operator".
Definition KEY_ADVANCED_COLLAPSED : string := "/SelectMatchingFeatures/advancedCollapsed".

(** [self.settings.value(key, default)] *)
Definition value (settings : gmap string qvalue) (key : string) (dflt : qvalue) : qvalue :=
  default dflt (settings !! key).

(** [self.settings.setValue(key, v)] *)
Definition setValue (key : string) (v : qvalue) (settings : gmap string qvalue)
  : gmap string qvalue :=
  <[key := v]> settings.

Definition get_current_layer (settings : gmap string qvalue) : qvalue :=
  value settings KEY_CURRENT_LAYER (QStr EmptyString).

Definition set_current_layer (layer_id : string) (settings : gmap string qvalue)
  : gmap string qvalue :=
  if bool_decide (layer_id = EmptyString) then settings
  else setValue KEY_CURRENT_LAYER (QStr layer_id) settings.

Definition get_current_field (settings : gmap string qvalue) : qvalue :=
  value settings KEY_CURRENT_FIELD (QStr EmptyString).

Definition set_current_field (field_name : string) (settings : gmap string qvalue)
  : gmap string qvalue :=
  if bool_decide (field_name = EmptyString) then settings
  else setValue KEY_CURRENT_FIELD (QStr field_name) settings.

Definition get_operator (settings : gmap string qvalue) : qvalue :=
  value settings KEY_OPERATOR (QStr "=").

Definition set_operator (operator : string) (settings : gmap string qvalue)
  : gmap string qvalue :=
  if bool_decide (operator ∈ ["="; "!="; "<"; ">"; "<="; ">="])
  then setValue KEY_OPERATOR (QStr operator) settings
  else settings.

Definition reset_all (settings : gmap string qvalue) : gmap string qvalue :=
  foldl (fun st key => delete key st) settings
    [KEY_CURRENT_LAYER; KEY_CURRENT_FIELD; KEY_HIDE_NON_MATCHING;
     KEY_SELECT_FILTERED; KEY_OPERATOR; KEY_ADVANCED_COLLAPSED].

(** Upper-case ASCII letters to lower case, other characters as they are. *)
Definition lower (c : ascii) : ascii :=
  let n := nat_of_ascii c in
  if (Nat.leb 65 n && Nat.leb n 90)%bool then ascii_of_nat (n + 32) else c.

Fixpoint lowered (s : string) : string :=
  match s with
  | EmptyString => EmptyString
  | String c rest => String (lower c) (lowered rest)
  end.

(** The conversion asked by [type=bool]: a boolean is itself; a text is
    false when, in lower case, it is empty, [0] or [false]. *)
Definition to_bool (v : qvalue) : bool :=
  match v with
  | QBool b => b
  | QStr s =>
      let t := lowered s in
      negb (String.eqb t EmptyString || String.eqb t "0" || String.eqb t "false")
  end.

Definition get_hide_non_matching (settings : gmap string qvalue) : bool :=
  to_bool (value settings KEY_HIDE_NON_MATCHING (QBool false)).

Definition set_hide_non_matching (hide_mode : bool) (settings : gmap string qvalue)
  : gmap string qvalue :=
  setValue KEY_HIDE_NON_MATCHING (QBool hide_mode) settings.

Definition get_select_filtered (settings : gmap string qvalue) : bool :=
  to_bool (value settings KEY_SELECT_FILTERED (QBool false)).

Definition set_select_filtered (select_filtered : bool) (settings : gmap string qvalue)
  : gmap string qvalue :=
  setValue KEY_SELECT_FILTERED (QBool select_filtered) settings.

Definition get_advanced_collapsed (settings : gmap string qvalue) : bool :=
  to_bool (value settings KEY_ADVANCED_COLLAPSED (QBool true)).

Definition set_advanced_collapsed (collapsed : bool) (settings : gmap string qvalue)
  : gmap string qvalue :=
  setValue KEY_ADVANCED_COLLAPSED (QBool collapsed) settings.

End SettingsManager.

(** ** The host layer, as an in-memory double *)

Module Host.

(** A feature: its transient identifier and its attribute values, in the
    order of the layer's fields. *)
Record feature : Type := Feature {
  id : Z;
  attributes : list Py.value
}.

(** The host calls that the double records, in the order they are made. *)
Inductive call : Type :=
| IsEditable
| SelectedFeatures
| PrimaryKeyAttributes
| Fields
| Name
| SubsetString
| SetSubsetString (s : string)
| GetFeatures
| SelectByIds (ids : list Z)
| SelectAll
| SelectedFeatureCount
| RemoveSelection.

Inductive level : Type := LogInfo | LogWarning | LogCritical.

(** The layer object.  [accepts] is the provider's evaluation of a subset
    string on a feature; [calls] is the record of host calls and [log]
    the lines sent to the message log. *)
Record layer : Type := Layer {
  layer_name : string;
  editable : bool;
  subset : string;
  field_names : list string;
  pk_attributes : list nat;
  data : list feature;
  accepts : string -> feature -> bool;
  selection : list Z;
  calls : list call;
  log : list (level * string)
}.

Definition with_subset (s : string) (l : layer) : layer :=
  Layer (layer_name l) (editable l) s (field_names l) (pk_attributes l)
        (data l) (accepts l) (selection l) (calls l) (log l).

Definition with_selection (ids : list Z) (l : layer) : layer :=
  Layer (layer_name l) (editable l) (subset l) (field_names l) (pk_attributes l)
        (data l) (accepts l) ids (calls l) (log l).

Definition with_pk_attributes (pk : list nat) (l : layer) : layer :=
  Layer (layer_name l) (editable l) (subset l) (field_names l) pk
        (data l) (accepts l) (selection l) (calls l) (log l).

Definition record (c : call) (l : layer) : layer :=
  Layer (layer_name l) (editable l) (subset l) (field_names l) (pk_attributes l)
        (data l) (accepts l) (selection l) (calls l ++ [c]) (log l).

Definition logMessage (lv : level) (message : string) (l : layer) : layer :=
  Layer (layer_name l) (editable l) (subset l) (field_names l) (pk_attributes l)
        (data l) (accepts l) (selection l) (calls l) (log l ++ [(lv, message)]).

(** The features that the layer iterates: all of them without a subset
    string, those the provider accepts with one. *)
Definition visible (l : layer) : list feature :=
  if bool_decide (subset l = EmptyString) then data l
  else List.filter (accepts l (subset l)) (data l).

Definition is_selected (l : layer) (f : feature) : bool :=
  bool_decide (id f ∈ selection l).

(** The features that [selectedFeatures()] hands out. *)
Definition selected (l : layer) : list feature :=
  List.filter (is_selected l) (data l).

(** The position of the first field called [name]. *)
Fixpoint lookupField (fields : list string) (name : string) : option nat :=
  match fields with
  | [] => None
  | f :: rest =>
      if String.eqb f name then Some O
      else option_map S (lookupField rest name)
  end.

(** [fields[i]] on the layer's fields: an [IndexError] out of range. *)
Definition fields_getitem (fields : list string) (i : nat) : Py.outcome string :=
  match nth_error fields i with
  | Some f => Py.Returned f
  | None => Py.Raised (Py.IndexError "sequence index out of range")
  end.

(** [feature[name]]: the attribute at the field called [name]; a
    [KeyError] when there is no such field, and the null value when the
    feature carries fewer attributes than the layer has fields. *)
Definition feature_getitem (fields : list string) (f : feature) (name : string)
  : Py.outcome Py.value :=
  match lookupField fields name with
  | Some i => Py.Returned (nth i (attributes f) Py.None_)
  | None => Py.Raised (Py.KeyError name)
  end.

(** What the host may refuse: for a call made on the layer as it stands,
    and for a line sent to the message log, the exception that the host
    raises, if it raises one. *)
Class faults : Type := Faults {
  call_raises : call -> layer -> option Py.exn;
  log_raises : level -> string -> layer -> option Py.exn
}.

(** The host that answers every call and logs every line.  A statement
    that names no other host is about this one. *)
#[global] Instance reliable : faults :=
  Faults (fun _ _ => None) (fun _ _ _ => None).

End Host.

(** ** Computations on the layer

    A method body runs against the layer, may change it, and returns or
    raises.  What was changed before an exception stays changed.  The
    calls on the host are made against [Host.faults], which says which
    of them the host refuses. *)

Module Run.

Definition M (A : Type) : Type := Host.layer -> Host.layer * Py.outcome A.

Definition ret {A : Type} (a : A) : M A := fun l => (l, Py.Returned a).

Definition bind {A B : Type} (m : M A) (k : A -> M B) : M B :=
  fun l =>
    match m l with
    | (l', Py.Returned a) => k a l'
    | (l', Py.Raised e) => (l', Py.Raised e)
    end.

(** A pure step that may raise. *)
Definition lift {A : Type} (o : Py.outcome A) : M A := fun l => (l, o).

(** [try: body  except ... as e: handler e] *)
Definition try_except {A : Type} (body : M A) (handler : Py.exn -> M A) : M A :=
  fun l =>
    match body l with
    | (l', Py.Returned a) => (l', Py.Returned a)
    | (l', Py.Raised e) => handler e l'
    end.

Section Faults.

Context {host_faults : Host.faults}.

(** A host call: recorded, then refused with an exception, which leaves
    the layer as it was, or answered from the layer. *)
Definition host {A : Type} (c : Host.call) (answer : Host.layer -> A)
                (effect : Host.layer -> Host.layer) : M A :=
  fun l =>
    let l' := Host.record c l in
    match Host.call_raises c l with
    | Some e => (l', Py.Raised e)
    | None => (effect l', Py.Returned (answer l'))
    end.

Definition isEditable : M bool := host Host.IsEditable Host.editable (fun l => l).

Definition selectedFeatures : M (list Host.feature) :=
  host Host.SelectedFeatures Host.selected (fun l => l).

Definition primaryKeyAttributes : M (list nat) :=
  host Host.PrimaryKeyAttributes Host.pk_attributes (fun l => l).

Definition fields : M (list string) := host Host.Fields Host.field_names (fun l => l).

Definition name : M string := host Host.Name Host.layer_name (fun l => l).

Definition subsetString : M string := host Host.SubsetString Host.subset (fun l => l).

Definition setSubsetString (s : string) : M unit :=
  host (Host.SetSubsetString s) (fun _ => tt) (Host.with_subset s).

Definition getFeatures : M (list Host.feature) :=
  host Host.GetFeatures Host.visible (fun l => l).

Definition selectByIds (ids : list Z) : M unit :=
  host (Host.SelectByIds ids) (fun _ => tt) (Host.with_selection ids).

Definition selectAll : M unit :=
  host Host.SelectAll (fun _ => tt)
       (fun l => Host.with_selection (List.map Host.id (Host.visible l)) l).

Definition selectedFeatureCount : M Z :=
  host Host.SelectedFeatureCount
       (fun l => Z.of_nat (List.length (Host.selection l))) (fun l => l).

Definition removeSelection : M unit :=
  host Host.RemoveSelection (fun _ => tt) (Host.with_selection []).

(** [QgsMessageLog.logMessage(message, PLUGIN_NAME, level)] *)
Definition logMessage (lv : Host.level) (message : string) : M unit :=
  fun l =>
    match Host.log_raises lv message l with
    | Some e => (l, Py.Raised e)
    | None => (Host.logMessage lv message l, Py.Returned tt)
    end.

End Faults.

(** [if not layer: return absent], then the body on the layer. *)
Definition on {A : Type} (layer : option Host.layer) (absent : A) (body : M A)
  : option Host.layer * Py.outcome A :=
  match layer with
  | None => (None, Py.Returned absent)
  | Some l => let (l', r) := body l in (Some l', r)
  end.

(** Calling, from a body, a method that takes the layer as argument. *)
Definition invoke {A : Type}
    (method : option Host.layer -> option Host.layer * Py.outcome A) : M A :=
  fun l =>
    match method (Some l) with
    | (Some l', r) => (l', r)
    | (None, r) => (l, r)
    end.

End Run.

Declare Scope run_scope.
Delimit Scope run_scope with run.
Notation "x <- m ;; k" := (Run.bind m (fun x => k))
  (at level 100, m at next level, right associativity) : run_scope.
Notation "m ;; k" := (Run.bind m (fun _ => k))
  (at level 100, right associativity) : run_scope.

(** ** utils/logger.py *)

Module PluginLogger.

Section Faults.

Context {host_faults : Host.faults}.

Definition info (message : string) : Run.M unit :=
  Run.logMessage Host.LogInfo message.

Definition warning (message : string) : Run.M unit :=
  Run.logMessage Host.LogWarning message.

Definition error (message : string) : Run.M unit :=
  Run.logMessage Host.LogCritical message.

End Faults.

End PluginLogger.

(** ** core/selection_manager.py *)

Module SelectionManager.

Local Open Scope run_scope.

(** [pk_value is None or (hasattr(pk_value, 'isNull') and pk_value.isNull())] *)
Definition is_null (pk_value : Py.value) : bool :=
  match pk_value with
  | Py.None_ | Py.QNull => true
  | Py.Str _ | Py.Int _ => false
  end.

(** The loop over the selected features, with [pk_values] as it stands
    when the loop reaches [features]. *)
Fixpoint collect_pk_values (fields : list string) (pk_field_name : string)
    (features : list Host.feature) (pk_values : list Py.value)
  : Py.outcome (list Py.value) :=
  match features with
  | [] => Py.Returned pk_values
  | feature :: rest =>
      match Host.feature_getitem fields feature pk_field_name with
      | Py.Raised e => Py.Raised e
      | Py.Returned pk_value =>
          if is_null pk_value
          then collect_pk_values fields pk_field_name rest pk_values
          else collect_pk_values fields pk_field_name rest (pk_values ++ [pk_value])
      end
  end.

(** The text between the parentheses of the predicate. *)
Definition value_list (pk_values : list Py.value) : Py.outcome string :=
  match pk_values with
  | Py.Str _ :: _ =>
      match Py.comprehension (Py.value_replace "'" "''") pk_values with
      | Py.Raised e => Py.Raised e
      | Py.Returned escaped_values =>
          Py.Returned
            (Py.join "," (List.map (fun value => "'" ++ value ++ "'") escaped_values))
      end
  | _ => Py.Returned (Py.join "," (List.map Py.str pk_values))
  end.

Section Faults.

Context {host_faults : Host.faults}.

Definition has_edit_session : Run.M bool := Run.isEditable.

Definition apply_filter_to_selection (layer : option Host.layer)
  : option Host.layer * Py.outcome (bool * Z * string) :=
  Run.on layer (false, 0, "No layer provided")
    (editing <- has_edit_session ;;
     if editing : bool then
       Run.ret (false, 0, "Filter cannot be applied: Layer has an active edit session")
     else
     (selected_features <- Run.selectedFeatures ;;
      match selected_features with
      | [] => Run.ret (false, 0, "No features selected")
      | _ :: _ =>
      (pk_indexes <- Run.primaryKeyAttributes ;;
       match pk_indexes with
       | [] => Run.ret (false, 0, "Layer has no primary key")
       | pk_index :: _ =>
           Run.try_except
             (fields <- Run.fields ;;
              pk_field_name <- Run.lift (Host.fields_getitem fields pk_index) ;;
              pk_values <- Run.lift
                (collect_pk_values fields pk_field_name selected_features []) ;;
              match pk_values with
              | [] =>
                  Run.ret
                    (false, 0, "No valid primary key values found in selected features")
              | _ :: _ =>
                  (values <- Run.lift (value_list pk_values) ;;
                   let filter_string :=
                     Py.dquote ++ pk_field_name ++ Py.dquote ++ " IN (" ++ values ++ ")" in
                   Run.setSubsetString filter_string ;;
                   PluginLogger.info
                     ("Applied filter to "
                      ++ Py.str_of_Z (Z.of_nat (List.length pk_values))
                      ++ " features: " ++ Py.take 100 filter_string) ;;
                   Run.ret (true, Z.of_nat (List.length pk_values), EmptyString))
              end)
             (fun e =>
                match e with
                | Py.IndexError _ =>
                    let error_msg := "Primary key field not found: " ++ Py.str_of_exn e in
                    PluginLogger.error error_msg ;;
                    Run.ret (false, 0, error_msg)
                | _ =>
                    let error_msg := "Failed to apply filter: " ++ Py.str_of_exn e in
                    PluginLogger.error error_msg ;;
                    Run.ret (false, 0, error_msg)
                end)
       end)
      end)).


Definition clear_selection (layer : option Host.layer)
  : option Host.layer * Py.outcome bool :=
  Run.on layer false
    (Run.try_except
       (Run.removeSelection ;; Run.ret true)
       (fun e =>
          PluginLogger.error ("Error clearing selection: " ++ Py.str_of_exn e) ;;
          Run.ret false)).

Definition select_all_in_filter (layer : option Host.layer)
  : option Host.layer * Py.outcome Z :=
  Run.on layer (-1)
    (Run.try_except
       (Run.selectAll ;;
        count <- Run.selectedFeatureCount ;;
        PluginLogger.info ("Selected " ++ Py.str_of_Z count ++ " filtered features") ;;
        Run.ret count)
       (fun e =>
          PluginLogger.error ("Error selecting filtered features: " ++ Py.str_of_exn e) ;;
          Run.ret (-1))).

Definition has_active_filter (layer : option Host.layer)
  : option Host.layer * Py.outcome bool :=
  Run.on layer false
    (s <- Run.subsetString ;;
     Run.ret (negb (bool_decide (s = EmptyString)))).

Definition get_filtered_feature_ids (layer : option Host.layer)
  : option Host.layer * Py.outcome (list Z) :=
  Run.on layer []
    (s <- Run.subsetString ;;
     if bool_decide (s = EmptyString) then Run.ret []
     else
       Run.try_except
         (features <- Run.getFeatures ;;
          let feature_ids := List.map Host.id features in
          PluginLogger.info
            ("Retrieved " ++ Py.str_of_Z (Z.of_nat (List.length feature_ids))
             ++ " filtered feature IDs") ;;
          Run.ret feature_ids)
         (fun e =>
            PluginLogger.error
              ("Error getting filtered feature IDs: " ++ Py.str_of_exn e) ;;
            Run.ret [])).

Definition clear_filter_and_select_features (layer : option Host.layer)
  : option Host.layer * Py.outcome (bool * Z * string) :=
  Run.on layer (false, 0, "No layer provided")
    (s <- Run.subsetString ;;
     if bool_decide (s = EmptyString) then
       Run.ret (false, 0, "No active filter to clear")
     else
       Run.try_except
         (filtered_ids <- Run.invoke get_filtered_feature_ids ;;
          match filtered_ids with
          | [] => Run.ret (false, 0, "No features in filter")
          | _ :: _ =>
              (Run.setSubsetString EmptyString ;;
               Run.selectByIds filtered_ids ;;
               let count := Z.of_nat (List.length filtered_ids) in
               PluginLogger.info
                 ("Cleared filter and selected " ++ Py.str_of_Z count ++ " features") ;;
               Run.ret (true, count, EmptyString))
          end)
         (fun e =>
            let error_msg :=
              "Failed to clear filter and select features: " ++ Py.str_of_exn e in
            PluginLogger.error error_msg ;;
            Run.ret (false, 0, error_msg))).

End Faults.

End SelectionManager.

(** ** The specification's words, as definitions

    These follow the text of the specification and are compared with the
    embedded code below. *)

Module Words.

(** "Single quotes in the value are escaped by doubling." *)
Fixpoint doubled (s : string) : string :=
  match s with
  | EmptyString => EmptyString
  | String c rest =>
      if Ascii.eqb c "'"%char then String c (String c (doubled rest))
      else String c (doubled rest)
  end.

(** "String values quoted/escaped, numeric values bare." *)
Definition literal (v : Py.value) : string :=
  match v with
  | Py.Str s => "'" ++ doubled s ++ "'"
  | _ => Py.str v
  end.

(** The predicate ["pk_field" IN (v1, v2, ...)]. *)
Definition in_predicate (pk_field : string) (values : list string) : string :=
  Py.dquote ++ pk_field ++ Py.dquote ++ " IN (" ++ Py.join "," values ++ ")".

(** The primary-key field value of a feature: its attribute under the
    field of that name. *)
Definition key_value (fields : list string) (pk_field : string) (f : Host.feature)
  : Py.value :=
  match Host.lookupField fields pk_field with
  | Some j => nth j (Host.attributes f) Py.None_
  | None => Py.None_
  end.

(** "Null": the value is absent, or it is the host's null variant.  A
    number, zero included, and a text, the empty one included, are
    values. *)
Definition null (v : Py.value) : bool :=
  match v with
  | Py.Str _ | Py.Int _ => false
  | Py.None_ | Py.QNull => true
  end.

(** "Drops values that are null", in encounter order. *)
Definition retained (fields : list string) (pk_field : string)
    (features : list Host.feature) : list Py.value :=
  List.filter (fun v => negb (null v))
              (List.map (key_value fields pk_field) features).

Definition is_str (v : Py.value) : bool :=
  match v with Py.Str _ => true | _ => false end.

Definition is_int (v : Py.value) : bool :=
  match v with Py.Int _ => true | _ => false end.

(** The six registered operator symbols. *)
Definition registered : list string := ["="; "!="; "<"; ">"; "<="; ">="].

(** A host call that changes the subset filter or the selection. *)
Definition mutates (c : Host.call) : bool :=
  match c with
  | Host.SetSubsetString _ | Host.SelectByIds _
  | Host.SelectAll | Host.RemoveSelection => true
  | _ => false
  end.

End Words.

(** ** Sample layers *)

Module Demo.

(** The provider of the samples keeps the features whose identifier is at
    most 11, whatever the subset string. *)
Definition low_ids (_ : string) (f : Host.feature) : bool := Z.leb (Host.id f) 11.

(** Four selected features with primary-key values 3, 7, 7 and [None]. *)
Definition roads : Host.layer :=
  Host.Layer "roads" false EmptyString ["pk"; "label"] [0%nat]
    [Host.Feature 10 [Py.Int 3; Py.Str "a"];
     Host.Feature 11 [Py.Int 7; Py.Str "b'c"];
     Host.Feature 12 [Py.Int 7; Py.Str "d"];
     Host.Feature 13 [Py.None_; Py.Str "e"]]
    low_ids [10; 11; 12; 13] [] [].

(** The same layer, keyed by its textual field. *)
Definition roads_by_label : Host.layer := Host.with_pk_attributes [1%nat] roads.

(** The same layer with a composite key. *)
Definition roads_composite : Host.layer := Host.with_pk_attributes [0%nat; 1%nat] roads.

(** The same layer with a filter in place. *)
Definition roads_filtered : Host.layer := Host.with_subset "x" roads.

(** A layer whose selected features have only null keys. *)
Definition nulls : Host.layer :=
  Host.Layer "nulls" false EmptyString ["pk"] [0%nat]
    [Host.Feature 1 [Py.None_]; Host.Feature 2 [Py.QNull]]
    low_ids [1; 2] [] [].

(** A layer whose key column holds a number and then a text. *)
Definition mixed : Host.layer :=
  Host.Layer "mixed" false EmptyString ["pk"] [0%nat]
    [Host.Feature 1 [Py.Int 1]; Host.Feature 2 [Py.Str "a'b"]]
    low_ids [1; 2] [] [].

(** A layer in an edit session, with a filter in place. *)
Definition editing : Host.layer :=
  Host.Layer "editing" true "x" ["pk"] [0%nat]
    [Host.Feature 10 [Py.Int 3]; Host.Feature 12 [Py.Int 7]]
    low_ids [10] [] [].

(** A host that refuses to change the selection. *)
Definition selection_refused : Host.faults :=
  Host.Faults
    (fun c _ =>
       match c with
       | Host.SelectByIds _ | Host.SelectAll | Host.RemoveSelection =>
           Some (Py.RuntimeError "selection refused")
       | _ => None
       end)
    (fun _ _ _ => None).

(** A host that refuses to change the subset filter. *)
Definition filter_refused : Host.faults :=
  Host.Faults
    (fun c _ =>
       match c with
       | Host.SetSubsetString _ => Some (Py.RuntimeError "filter refused")
       | _ => None
       end)
    (fun _ _ _ => None).

End Demo.

(** ** utils/validators.py *)

Module Validator.

(** A check passes with a value or raises [ValidationError] with a message. *)
Inductive result (A : Type) : Type :=
| Passed (a : A)
| ValidationError (message : string).
Arguments Passed {A} a.
Arguments ValidationError {A} message.

Section Validity.

(** What the host answers to [layer.isValid()]. *)
Variable isValid : Host.layer -> bool.

Definition validate_layer (layer : option Host.layer) : result bool :=
  match layer with
  | None => ValidationError "Please select a layer"
  | Some l =>
      if negb (isValid l)
      then ValidationError ("Layer '" ++ Host.layer_name l ++ "' is not valid")
      else Passed true
  end.

Definition validate_field (field_name : string) (layer : option Host.layer)
  : result bool :=
  if bool_decide (field_name = EmptyString) then
    ValidationError "Please select a field"
  else
    match layer with
    | Some l =>
        let field_names := Host.field_names l in
        if negb (bool_decide (field_name ∈ field_names)) then
          ValidationError
            ("Field '" ++ field_name ++ "' does not exist in layer '"
             ++ Host.layer_name l ++ "'")
        else Passed true
    | None => Passed true
    end.

Definition validate_layer_and_field (layer : option Host.layer) (field_name : string)
  : result bool :=
  match validate_layer layer with
  | ValidationError m => ValidationError m
  | Passed _ =>
      match validate_field field_name layer with
      | ValidationError m => ValidationError m
      | Passed _ => Passed true
      end
  end.

Definition validate_primary_key (layer : option Host.layer) : result bool :=
  match validate_layer layer with
  | ValidationError m => ValidationError m
  | Passed _ =>
      match layer with
      | None => Passed true
      | Some l =>
          match Host.pk_attributes l with
          | [] =>
              ValidationError
                ("Layer '" ++ Host.layer_name l ++ "' has no primary key. "
                 ++ "Cannot apply filter without a primary key.")
          | _ :: _ => Passed true
          end
      end
  end.

Definition validate_selection_exists (layer : option Host.layer) : result Z :=
  match validate_layer layer with
  | ValidationError m => ValidationError m
  | Passed _ =>
      match layer with
      | None => Passed 0
      | Some l =>
          let count := Z.of_nat (List.length (Host.selection l)) in
          if Z.eqb count 0 then ValidationError "No features are selected"
          else Passed count
      end
  end.

End Validity.

End Validator.

(** ** A Python dictionary with text keys, in insertion order *)

Module Dict.

Section Values.

Variable V : Type.

(** [d.get(key)] *)
Fixpoint get (d : list (string * V)) (key : string) : option V :=
  match d with
  | [] => None
  | (k, v) :: rest => if String.eqb k key then Some v else get rest key
  end.

(** [key in d] *)
Definition contains (d : list (string * V)) (key : string) : bool :=
  match get d key with Some _ => true | None => false end.

(** [del d[key]] on a key that is present. *)
Fixpoint del (d : list (string * V)) (key : string) : list (string * V) :=
  match d with
  | [] => []
  | (k, v) :: rest => if String.eqb k key then rest else (k, v) :: del rest key
  end.

(** [d[key] = v]: in place for a key that is present, at the end otherwise. *)
Fixpoint set (d : list (string * V)) (key : string) (v : V) : list (string * V) :=
  match d with
  | [] => [(key, v)]
  | (k, w) :: rest =>
      if String.eqb k key then (k, v) :: rest else (k, w) :: set rest key v
  end.

(** [list(d.keys())] and [list(d.values())] *)
Definition keys (d : list (string * V)) : list string := List.map fst d.
Definition values (d : list (string * V)) : list V := List.map snd d.

End Values.

Arguments get {V} d key.
Arguments contains {V} d key.
Arguments del {V} d key.
Arguments set {V} d key v.
Arguments keys {V} d.
Arguments values {V} d.

End Dict.

(** ** core/highlight_manager.py *)

Module HighlightManager.

Record QColor : Type := Color {
  red : Z;
  green : Z;
  blue : Z;
  alpha : Z
}.

Section Canvas.

(** The geometry and the layer handed to an overlay are never looked into. *)
Variables (Geometry Layer : Type).

(** An overlay of the canvas, as its setters have left it. *)
Record QgsHighlight : Type := Highlight {
  geometry : Geometry;
  layer : Layer;
  color : QColor;
  fill_color : QColor;
  width : Z;
  visible : bool
}.

Definition hidden (h : QgsHighlight) : QgsHighlight :=
  Highlight (geometry h) (layer h) (color h) (fill_color h) (width h) false.

(** The manager: [highlights] maps a name to an overlay, given by its
    position among the overlays created on the canvas so far. *)
Record manager : Type := Manager {
  highlights : list (string * nat);
  canvas : list QgsHighlight
}.

(** [HighlightManager(canvas)] on a canvas without overlays. *)
Definition init : manager := Manager [] [].

(** [overlay.hide()] for the overlay at position [i]. *)
Definition hide (i : nat) (overlays : list QgsHighlight) : list QgsHighlight :=
  match overlays !! i with
  | Some h => <[i := hidden h]> overlays
  | None => overlays
  end.

Definition remove_highlight (name : string) (self : manager) : manager * bool :=
  match Dict.get (highlights self) name with
  | Some i => (Manager (Dict.del (highlights self) name) (hide i (canvas self)), true)
  | None => (self, false)
  end.

Definition add_highlight (name : string) (g : Geometry) (l : Layer)
    (color_arg : option QColor) (width_arg : option Z) (self : manager) : manager :=
  let self1 := fst (remove_highlight name self) in
  let c := match color_arg with Some c => c | None => Color 255 50 0 255 end in
  let w := match width_arg with Some w => w | None => 2 end in
  let highlight := Highlight g l c (Color 0 0 0 0) w true in
  Manager (Dict.set (highlights self1) name (List.length (canvas self1)))
          (canvas self1 ++ [highlight]).

Definition has_highlight (name : string) (self : manager) : bool :=
  Dict.contains (highlights self) name.

Definition clear_all (self : manager) : manager :=
  Manager [] (List.fold_left (fun overlays i => hide i overlays)
                             (Dict.values (highlights self)) (canvas self)).

Definition get_highlight_names (self : manager) : list string :=
  Dict.keys (highlights self).

(** The overlay that the manager holds under a name. *)
Definition overlay_of (name : string) (self : manager) : option QgsHighlight :=
  match Dict.get (highlights self) name with
  | Some i => canvas self !! i
  | None => None
  end.

(** The manager is consistent: names are distinct, every name has its own
    overlay on the canvas, and the overlays shown are those of the names. *)
Definition consistent (self : manager) : Prop :=
  NoDup (Dict.keys (highlights self)) /\
  NoDup (Dict.values (highlights self)) /\
  forall i : nat,
    i ∈ Dict.values (highlights self) <->
    exists h, canvas self !! i = Some h /\ visible h = true.

End Canvas.

Arguments Highlight {Geometry Layer} _ _ _ _ _ _.
Arguments geometry {Geometry Layer} _.
Arguments layer {Geometry Layer} _.
Arguments color {Geometry Layer} _.
Arguments fill_color {Geometry Layer} _.
Arguments width {Geometry Layer} _.
Arguments visible {Geometry Layer} _.
Arguments hidden {Geometry Layer} _.
Arguments Manager {Geometry Layer} _ _.
Arguments highlights {Geometry Layer} _.
Arguments canvas {Geometry Layer} _.
Arguments init {Geometry Layer}.
Arguments hide {Geometry Layer} _ _.
Arguments remove_highlight {Geometry Layer} _ _.
Arguments add_highlight {Geometry Layer} _ _ _ _ _ _.
Arguments has_highlight {Geometry Layer} _ _.
Arguments clear_all {Geometry Layer} _.
Arguments get_highlight_names {Geometry Layer} _.
Arguments overlay_of {Geometry Layer} _ _.
Arguments consistent {Geometry Layer} _.

End HighlightManager.

(** ** gui/select_matching_features_dockwidget.py *)

Module DockWidget.

(** What the widgets of the dock answer when asked: the checked state of
    the radio buttons and of the check box, the collapsed state of the
    advanced group, the identifier of the layer of the layer combo if it
    has one, and the field of the field combo. *)
Record widgets : Type := Widgets {
  grpAdvanced_isCollapsed : bool;
  radioOpEqual : bool;
  radioOpNotEqual : bool;
  radioOpLessThan : bool;
  radioOpGreaterThan : bool;
  radioOpLessEqual : bool;
  radioOpGreaterEqual : bool;
  radioHideNonMatching : bool;
  chkSelectFiltered : bool;
  mLayerCombo_currentLayer : option string;
  mFieldCombo_currentField : string
}.

Definition get_operator (self : widgets) : string :=
  if grpAdvanced_isCollapsed self then "="
  else if radioOpEqual self then "="
  else if radioOpNotEqual self then "!="
  else if radioOpLessThan self then "<"
  else if radioOpGreaterThan self then ">"
  else if radioOpLessEqual self then "<="
  else if radioOpGreaterEqual self then ">="
  else "=".

Definition save_settings (self : widgets) (settings : gmap string SettingsManager.qvalue)
  : gmap string SettingsManager.qvalue :=
  let s1 :=
    match mLayerCombo_currentLayer self with
    | Some layer_id => SettingsManager.set_current_layer layer_id settings
    | None => settings
    end in
  let s2 :=
    if bool_decide (mFieldCombo_currentField self = EmptyString) then s1
    else SettingsManager.set_current_field (mFieldCombo_currentField self) s1 in
  let s3 := SettingsManager.set_hide_non_matching (radioHideNonMatching self) s2 in
  let s4 := SettingsManager.set_select_filtered (chkSelectFiltered self) s3 in
  SettingsManager.set_operator (get_operator self) s4.

End DockWidget.

(** Closes the side conditions of rewriting with two different keys. *)
Ltac distinct_keys :=
  unfold SettingsManager.KEY_CURRENT_LAYER, SettingsManager.KEY_CURRENT_FIELD,
    SettingsManager.KEY_HIDE_NON_MATCHING, SettingsManager.KEY_SELECT_FILTERED,
    SettingsManager.KEY_OPERATOR, SettingsManager.KEY_ADVANCED_COLLAPSED;
  discriminate.

(** Unfolds the getters and setters down to lookups in the store. *)
Ltac unfold_settings :=
  unfold SettingsManager.get_current_layer, SettingsManager.get_current_field,
    SettingsManager.get_hide_non_matching, SettingsManager.get_select_filtered,
    SettingsManager.get_operator, SettingsManager.get_advanced_collapsed,
    SettingsManager.set_current_layer, SettingsManager.set_current_field,
    SettingsManager.set_hide_non_matching, SettingsManager.set_select_filtered,
    SettingsManager.set_advanced_collapsed,
    SettingsManager.value, SettingsManager.setValue.

(** On the host that answers every call, no call is refused. *)
Ltac answered := cbn [Host.call_raises Host.log_raises Host.reliable].

(** Reads the layer through the records of the calls made on it. *)
Ltac host_reduce :=
  cbn beta iota zeta delta
    [Host.subset Host.selection Host.editable Host.pk_attributes Host.field_names
     Host.layer_name Host.record Host.with_subset Host.with_selection
     Host.logMessage fst snd];
  repeat match goal with
    | |- context [Host.visible (Host.record ?c ?x)] =>
        change (Host.visible (Host.record c x)) with (Host.visible x)
    | |- context [Host.selected (Host.record ?c ?x)] =>
        change (Host.selected (Host.record c x)) with (Host.selected x)
    end.

(** One step of a run on an arbitrary host: the next call or log line is
    refused or answered, the next test on the filter string goes one way
    or the other. *)
Ltac host_step :=
  host_reduce;
  match goal with
  | H : bool_decide (?a = ?b) = _ |- context [bool_decide (?a = ?b)] => rewrite H
  | |- context [match Host.call_raises ?c ?x with _ => _ end] =>
      destruct (Host.call_raises c x) eqn:?
  | |- context [match Host.log_raises ?lv ?m ?x with _ => _ end] =>
      destruct (Host.log_raises lv m x) eqn:?
  | |- context [bool_decide (?a = ?b)] =>
      destruct (bool_decide (a = b)) eqn:?
  end.

(** One step of a run of [apply_filter_to_selection] on an arbitrary
    host. *)
Ltac apply_step :=
  host_reduce;
  match goal with
  | |- context [match Host.call_raises ?c ?x with _ => _ end] =>
      destruct (Host.call_raises c x) eqn:?
  | |- context [match Host.log_raises ?lv ?m ?x with _ => _ end] =>
      destruct (Host.log_raises lv m x) eqn:?
  | |- context [if Host.editable ?x then _ else _] =>
      destruct (Host.editable x) eqn:?
  | |- context [match Host.selected ?x with _ => _ end] =>
      destruct (Host.selected x) eqn:?
  | |- context [match Host.pk_attributes ?x with _ => _ end] =>
      destruct (Host.pk_attributes x) eqn:?
  | |- context [match Host.fields_getitem ?a ?b with _ => _ end] =>
      destruct (Host.fields_getitem a b) eqn:?
  | |- context [match SelectionManager.collect_pk_values ?a ?b ?c ?d with _ => _ end] =>
      destruct (SelectionManager.collect_pk_values a b c d) as [[|? ?]|?] eqn:?
  | |- context [match SelectionManager.value_list ?a with _ => _ end] =>
      destruct (SelectionManager.value_list a) eqn:?
  | |- context [match ?e with Py.IndexError _ => _ | _ => _ end] =>
      is_var e; destruct e
  end.

(** Closes a case in which the host has refused what it is assumed to
    answer, or answered what it is assumed to refuse. *)
Ltac refused_but_answered :=
  match goal with
  | H : forall l0, Host.call_raises ?c l0 = None,
    E : Host.call_raises ?c _ = Some _ |- _ =>
      rewrite H in E; discriminate E
  | H : forall s l0, Host.call_raises (Host.SetSubsetString s) l0 = None,
    E : Host.call_raises (Host.SetSubsetString _) _ = Some _ |- _ =>
      rewrite H in E; discriminate E
  | H : forall c l0, Host.call_raises c l0 = None,
    E : Host.call_raises _ _ = Some _ |- _ =>
      rewrite H in E; discriminate E
  | H : forall m l0, Host.log_raises ?lv m l0 = None,
    E : Host.log_raises ?lv _ _ = Some _ |- _ =>
      rewrite H in E; discriminate E
  | H : forall lv m l0, Host.log_raises lv m l0 = None,
    E : Host.log_raises _ _ _ = Some _ |- _ =>
      rewrite H in E; discriminate E
  | H : forall l0, Host.call_raises ?c l0 <> None,
    E : Host.call_raises ?c _ = None |- _ =>
      destruct (H _ E)
  end.

(** Closes [x ∉ l] for a closed string [x] and a closed list [l]. *)
Ltac decide_not_elem :=
  let H := fresh "H" in
  intros H; apply (bool_decide_eq_true_2 _) in H; vm_compute in H; discriminate H.

(** ** Strings *)

Lemma startswith_quote (c : ascii) (s : string) :
  Py.startswith "'" (String c s) = Ascii.eqb c "'"%char.
Proof.
  cbn [Py.startswith].
  destruct (Ascii.eqb_spec "'"%char c) as [<-|Hne]; [reflexivity|].
  symmetry. apply Ascii.eqb_neq. congruence.
Qed.

Lemma replace_quote_doubled (s : string) :
  Py.replace "'" "''" s = Words.doubled s.
Proof.
  unfold Py.replace. induction s as [|c s IH]; [reflexivity|].
  cbn [Py.replace_from]. rewrite startswith_quote. cbn [Words.doubled].
  destruct (Ascii.eqb c "'"%char) eqn:E.
  - apply Ascii.eqb_eq in E. subst c. cbn. now rewrite IH.
  - now rewrite IH.
Qed.

Lemma doubled_app (s t : string) :
  Words.doubled (s ++ t) = Words.doubled s ++ Words.doubled t.
Proof.
  induction s as [|c s IH]; [reflexivity|].
  simpl. rewrite IH. now destruct (Ascii.eqb c "'"%char).
Qed.

(** ** The operator registry *)

Lemma OPERATORS_unregistered (operator : string) :
  operator ∉ Words.registered -> OperatorManager.OPERATORS !! operator = None.
Proof.
  unfold Words.registered. rewrite !not_elem_of_cons.
  intros (H1 & H2 & H3 & H4 & H5 & H6 & _).
  unfold OperatorManager.OPERATORS.
  rewrite !lookup_insert_ne by congruence. apply lookup_empty.
Qed.

Lemma OPERATORS_registered (operator : string) :
  operator ∈ Words.registered -> is_Some (OperatorManager.OPERATORS !! operator).
Proof.
  unfold Words.registered. rewrite !elem_of_cons, elem_of_nil.
  intros [->|[->|[->|[->|[->|[->|[]]]]]]]; vm_compute; eauto.
Qed.

(** [validate_operator] answers exactly for the six registered symbols. *)
Lemma validate_operator_registered (operator : string) :
  OperatorManager.validate_operator operator = true <-> operator ∈ Words.registered.
Proof.
  unfold OperatorManager.validate_operator. rewrite bool_decide_eq_true. split.
  - intros Hs. destruct (decide (operator ∈ Words.registered)) as [|Hn]; [done|].
    rewrite (OPERATORS_unregistered _ Hn) in Hs. now destruct Hs.
  - apply OPERATORS_registered.
Qed.

(** C4: with an absent value, [build_expression] raises the
    invalid-operator error for each of [<], [>], [<=], [>=]; with [=] it
    returns ["field" IS NULL], with [!=] it returns ["field" IS NOT NULL],
    and the display label is [NULL] in both. *)
Theorem build_expression_null (field_name : string) :
  let invalid operator :=
    Py.Raised (Py.ValueError
      ("Operator '" ++ operator ++ "' cannot be used with NULL values. "
       ++ "Only '=' (IS NULL) and '!=' (IS NOT NULL) are supported.")) in
  ExpressionBuilder.build_expression field_name "<" Py.None_ = invalid "<" /\
  ExpressionBuilder.build_expression field_name ">" Py.None_ = invalid ">" /\
  ExpressionBuilder.build_expression field_name "<=" Py.None_ = invalid "<=" /\
  ExpressionBuilder.build_expression field_name ">=" Py.None_ = invalid ">=" /\
  ExpressionBuilder.build_expression field_name "=" Py.None_
    = Py.Returned (Py.dquote ++ field_name ++ Py.dquote ++ " IS NULL", "NULL") /\
  ExpressionBuilder.build_expression field_name "!=" Py.None_
    = Py.Returned (Py.dquote ++ field_name ++ Py.dquote ++ " IS NOT NULL", "NULL").
Proof.
  cbv zeta. unfold ExpressionBuilder.build_expression,
    ExpressionBuilder._build_null_expression.
  repeat apply conj; vm_compute; reflexivity.
Qed.

(** C5: for a textual value, [build_expression] returns
    ["field" OP 'escaped'], where the escaped form is the value with every
    single quote doubled, together with the original text wrapped in
    single quotes as display value. *)
Theorem build_expression_string (field_name operator value : string) :
  ExpressionBuilder.build_expression field_name operator (Py.Str value)
  = Py.Returned
      (Py.dquote ++ field_name ++ Py.dquote ++ " " ++ operator
         ++ " '" ++ Words.doubled value ++ "'",
       "'" ++ value ++ "'").
Proof.
  unfold ExpressionBuilder.build_expression,
    ExpressionBuilder._build_string_expression.
  now rewrite replace_quote_doubled.
Qed.

(** C9, as the code has it: for a symbol that is not registered, the
    null-compatibility check answers false, the NULL-clause lookup answers
    none, and the display-name lookup hands the symbol itself back. *)
Theorem unregistered_lookups (operator : string) :
  operator ∉ Words.registered ->
  OperatorManager.is_null_compatible operator = false /\
  OperatorManager.get_null_sql operator = None /\
  OperatorManager.get_operator_name operator = operator.
Proof.
  intros Hn. apply OPERATORS_unregistered in Hn.
  unfold OperatorManager.is_null_compatible, OperatorManager.get_null_sql,
    OperatorManager.get_operator_name.
  now rewrite Hn.
Qed.

Lemma unregistered_lookups_witness :
  ("~" ∉ Words.registered) /\
  OperatorManager.is_null_compatible "~" = false /\
  OperatorManager.get_null_sql "~" = None /\
  OperatorManager.get_operator_name "~" = "~".
Proof.
  assert (H : "~" ∉ Words.registered).
  { decide_not_elem. }
  split; [exact H | apply (unregistered_lookups "~" H)].
Defined.

(** C9 as stated fails: the display-name lookup of the unregistered symbol
    [~] returns [~], which is neither false, nor none, nor empty. *)
Lemma unregistered_name_not_empty :
  ("~" ∉ Words.registered) /\
  OperatorManager.get_operator_name "~" = "~" /\
  OperatorManager.get_operator_name "~" <> EmptyString.
Proof.
  split; [decide_not_elem|].
  split; [vm_compute; reflexivity|].
  vm_compute. discriminate.
Qed.

(** ** The settings store *)

(** C8: [set_operator] with a symbol outside the six leaves the store as it
    was, so that [get_operator] still answers what it answered before; on a
    fresh store [get_operator] answers [=]. *)
Theorem set_operator_unregistered (operator : string) (settings : gmap string SettingsManager.qvalue) :
  operator ∉ ["="; "!="; "<"; ">"; "<="; ">="] ->
  SettingsManager.set_operator operator settings = settings /\
  SettingsManager.get_operator (SettingsManager.set_operator operator settings)
    = SettingsManager.get_operator settings /\
  SettingsManager.get_operator ∅ = SettingsManager.QStr "=".
Proof.
  intros Hn. unfold SettingsManager.set_operator.
  rewrite bool_decide_eq_false_2 by exact Hn.
  repeat split.
Qed.

Lemma set_operator_unregistered_witness :
  let settings : gmap string SettingsManager.qvalue :=
    SettingsManager.set_operator "<=" ∅ in
  SettingsManager.get_operator settings = SettingsManager.QStr "<=" /\
  SettingsManager.set_operator "LIKE" settings = settings /\
  SettingsManager.get_operator (SettingsManager.set_operator "LIKE" settings)
    = SettingsManager.QStr "<=".
Proof.
  cbv zeta.
  assert (H : "LIKE" ∉ ["="; "!="; "<"; ">"; "<="; ">="]).
  { decide_not_elem. }
  destruct (set_operator_unregistered "LIKE" (SettingsManager.set_operator "<=" ∅) H)
    as (Hsame & Hget & _).
  assert (Hle : SettingsManager.get_operator (SettingsManager.set_operator "<=" ∅)
                = SettingsManager.QStr "<=") by (vm_compute; reflexivity).
  split; [exact Hle|]. split; [exact Hsame|]. now rewrite Hget.
Defined.

Lemma lookupField_nth_error (fields : list string) (i : nat) (name : string) :
  nth_error fields i = Some name -> exists j, Host.lookupField fields name = Some j.
Proof.
  revert i. induction fields as [|f fields IH]; intros [|i] H; try discriminate.
  - injection H as ->. exists O. simpl. now rewrite String.eqb_refl.
  - simpl in H. destruct (IH _ H) as [j Hj]. simpl.
    destruct (String.eqb f name); [now exists O|]. rewrite Hj. now exists (S j).
Qed.

(** The code's test for a null value is the specification's. *)
Lemma is_null_null (v : Py.value) : SelectionManager.is_null v = Words.null v.
Proof. now destruct v. Qed.

Lemma collect_pk_values_retained (fields : list string) (name : string) (j : nat)
    (features : list Host.feature) (pk_values : list Py.value) :
  Host.lookupField fields name = Some j ->
  SelectionManager.collect_pk_values fields name features pk_values
  = Py.Returned (pk_values ++ Words.retained fields name features)%list.
Proof.
  intros Hj.
  assert (Hk : forall f, nth j (Host.attributes f) Py.None_ = Words.key_value fields name f).
  { intros f. unfold Words.key_value. now rewrite Hj. }
  revert pk_values.
  induction features as [|f features IH]; intros pk_values.
  - simpl. now rewrite app_nil_r.
  - cbn [SelectionManager.collect_pk_values]. unfold Host.feature_getitem.
    rewrite Hj, Hk. unfold Words.retained. cbn [List.map List.filter].
    rewrite is_null_null.
    destruct (Words.null (Words.key_value fields name f)).
    + apply IH.
    + cbn [negb]. rewrite IH, <- app_assoc. reflexivity.
Qed.

Lemma value_list_raises (pk_values : list Py.value) (e : Py.exn) :
  SelectionManager.value_list pk_values = Py.Raised e ->
  exists msg, e = Py.AttributeError msg.
Proof.
  unfold SelectionManager.value_list.
  destruct pk_values as [|[| s | z |] rest]; try discriminate.
  destruct (Py.comprehension _ _) as [ys|e'] eqn:E; [discriminate|].
  intros [= <-]. clear -E. revert E.
  generalize (Py.Str s :: rest). intros vs. induction vs as [|v vs IH]; [discriminate|].
  cbn [Py.comprehension].
  destruct (Py.value_replace "'" "''" v) as [y|e1] eqn:Ev.
  - destruct (Py.comprehension _ vs) as [ys|e2]; [discriminate|].
    intros [= ->]. now apply IH.
  - intros [= ->]. destruct v; try discriminate; injection Ev as <-; eauto.
Qed.

Section ApplyFilter.
Variables (l : Host.layer) (pk_index : nat) (others : list nat) (pk_field : string).
Hypothesis not_editing : Host.editable l = false.
Hypothesis selected_some : Host.selected l <> [].
Hypothesis has_key : Host.pk_attributes l = pk_index :: others.
Hypothesis key_field : nth_error (Host.field_names l) pk_index = Some pk_field.

(** What [apply_filter_to_selection] does once its guards have passed. *)
Lemma apply_filter_run :
  let consulted :=
    Host.record Host.Fields
      (Host.record Host.PrimaryKeyAttributes
         (Host.record Host.SelectedFeatures (Host.record Host.IsEditable l))) in
  let pk_values := Words.retained (Host.field_names l) pk_field (Host.selected l) in
  SelectionManager.apply_filter_to_selection (Some l) =
    match pk_values with
    | [] =>
        (Some consulted,
         Py.Returned (false, 0, "No valid primary key values found in selected features"))
    | _ :: _ =>
        match SelectionManager.value_list pk_values with
        | Py.Returned values =>
            let filter_string :=
              Py.dquote ++ pk_field ++ Py.dquote ++ " IN (" ++ values ++ ")" in
            (Some (Host.logMessage Host.LogInfo
                     ("Applied filter to "
                      ++ Py.str_of_Z (Z.of_nat (List.length pk_values))
                      ++ " features: " ++ Py.take 100 filter_string)
                     (Host.with_subset filter_string
                        (Host.record (Host.SetSubsetString filter_string) consulted))),
             Py.Returned (true, Z.of_nat (List.length pk_values), EmptyString))
        | Py.Raised e =>
            let error_msg := "Failed to apply filter: " ++ Py.str_of_exn e in
            (Some (Host.logMessage Host.LogCritical error_msg consulted),
             Py.Returned (false, 0, error_msg))
        end
    end.
Proof.
  intros consulted pk_values.
  destruct (lookupField_nth_error _ _ _ key_field) as [j Hj].
  unfold SelectionManager.apply_filter_to_selection, Run.on, Run.bind,
    SelectionManager.has_edit_session, Run.isEditable, Run.selectedFeatures,
    Run.primaryKeyAttributes, Run.fields, Run.host, Run.try_except, Run.lift, Run.ret.
  answered.
  cbn [Host.editable Host.record Host.pk_attributes Host.field_names].
  rewrite not_editing.
  change (Host.selected (Host.record Host.SelectedFeatures (Host.record Host.IsEditable l)))
    with (Host.selected l).
  subst pk_values consulted.
  destruct (Host.selected l) as [|feature features] eqn:Hsel; [now destruct selected_some|].
  cbn [Host.pk_attributes Host.record]. rewrite has_key.
  cbn [Host.field_names Host.record]. unfold Host.fields_getitem. rewrite key_field.
  rewrite (collect_pk_values_retained _ _ j) by exact Hj.
  cbn [app].
  destruct (Words.retained (Host.field_names l) pk_field (feature :: features))
    as [|v vs] eqn:Hret; [reflexivity|].
  destruct (SelectionManager.value_list (v :: vs)) as [values|e] eqn:Hvl.
  - reflexivity.
  - destruct (value_list_raises _ _ Hvl) as [msg ->]. reflexivity.
Qed.
End ApplyFilter.

(** ** Applying a filter

    A statement that binds [host_faults] holds on every host, whatever it
    refuses; a statement that binds no host is about [Host.reliable], the
    host that answers every call. *)

(** The literals of a list of texts are their quoted, escaped forms. *)
Lemma value_list_strings (pk_values : list Py.value) :
  pk_values <> [] -> forallb Words.is_str pk_values = true ->
  SelectionManager.value_list pk_values
  = Py.Returned (Py.join "," (List.map Words.literal pk_values)).
Proof.
  intros Hne Hall.
  assert (Hc : Py.comprehension (Py.value_replace "'" "''") pk_values
               = Py.Returned (List.map (fun v => Words.doubled (Py.str v)) pk_values)).
  { clear Hne. induction pk_values as [|v vs IH]; [reflexivity|].
    cbn [forallb] in Hall. apply andb_prop in Hall as [Hv Hvs].
    destruct v; try discriminate.
    cbn [Py.comprehension Py.value_replace]. rewrite (IH Hvs).
    now rewrite replace_quote_doubled. }
  unfold SelectionManager.value_list.
  destruct pk_values as [|v vs]; [now destruct Hne|].
  destruct v; try discriminate.
  rewrite Hc, List.map_map. do 2 f_equal.
  apply List.map_ext_in. intros v Hv.
  assert (Hs : Words.is_str v = true).
  { rewrite forallb_forall in Hall. now apply Hall. }
  now destruct v.
Qed.

(** The literals of a list of numbers are their numerals. *)
Lemma value_list_numbers (pk_values : list Py.value) :
  forallb Words.is_int pk_values = true ->
  SelectionManager.value_list pk_values
  = Py.Returned (Py.join "," (List.map Words.literal pk_values)).
Proof.
  intros Hall. unfold SelectionManager.value_list.
  assert (Hm : List.map Py.str pk_values = List.map Words.literal pk_values).
  { apply List.map_ext_in. intros v Hv.
    assert (Hs : Words.is_int v = true).
    { rewrite forallb_forall in Hall. now apply Hall. }
    now destruct v. }
  destruct pk_values as [|v vs]; [reflexivity|].
  destruct v; try discriminate. now rewrite Hm.
Qed.

(** What [apply_filter_to_selection] does during an edit session. *)
Lemma apply_filter_editing_run (l : Host.layer) :
  Host.editable l = true ->
  SelectionManager.apply_filter_to_selection (Some l)
  = (Some (Host.record Host.IsEditable l),
     Py.Returned
       (false, 0, "Filter cannot be applied: Layer has an active edit session")).
Proof.
  intros He.
  unfold SelectionManager.apply_filter_to_selection, Run.on, Run.bind,
    SelectionManager.has_edit_session, Run.isEditable, Run.host.
  answered.
  cbn [Host.editable Host.record]. now rewrite He.
Qed.

(** C1: on a layer with an active edit session, [apply_filter_to_selection]
    returns the failure with the edit-session message; the subset filter
    keeps its value and the only host call made is the editability
    query. *)
Theorem apply_filter_editing (l : Host.layer) :
  Host.editable l = true ->
  exists l',
    SelectionManager.apply_filter_to_selection (Some l)
    = (Some l',
       Py.Returned
         (false, 0, "Filter cannot be applied: Layer has an active edit session")) /\
    Host.subset l' = Host.subset l /\
    Host.calls l' = (Host.calls l ++ [Host.IsEditable])%list.
Proof.
  intros He. exists (Host.record Host.IsEditable l).
  rewrite (apply_filter_editing_run l He). repeat split.
Qed.

Lemma apply_filter_editing_witness :
  Host.editable Demo.editing = true /\
  exists l',
    SelectionManager.apply_filter_to_selection (Some Demo.editing)
    = (Some l',
       Py.Returned
         (false, 0, "Filter cannot be applied: Layer has an active edit session")) /\
    Host.subset l' = "x" /\
    Host.calls l' = [Host.IsEditable].
Proof.
  split; [reflexivity|]. exact (apply_filter_editing Demo.editing eq_refl).
Defined.

(** The values kept are the key values of the features that are neither
    [None] nor the host's null variant. *)
Lemma retained_exactly (fields : list string) (pk_field : string)
    (features : list Host.feature) (v : Py.value) :
  In v (Words.retained fields pk_field features) <->
  (exists f, In f features /\ Words.key_value fields pk_field f = v) /\
  v <> Py.None_ /\ v <> Py.QNull.
Proof.
  unfold Words.retained. rewrite filter_In, in_map_iff. split.
  - intros [(f & Hf & Hin) Hv]. split; [now exists f|].
    destruct v; try discriminate Hv; split; discriminate.
  - intros [(f & Hin & Hf) [Hn Hq]]. split; [now exists f|].
    destruct v; try reflexivity; [now destruct Hn|now destruct Hq].
Qed.

(** C2: once the guards have passed, the loop over the selected features
    keeps exactly the primary-key values that are not null, that is,
    neither [None] nor the host's null variant, in encounter order.  When
    none is left the call fails with the
    no-valid-primary-key-values message and the filter untouched.  When
    some are left and they are all texts or all numbers, the call
    succeeds, the count it returns is the number of values kept, and the
    filter it sets lists these values in this order.  Whenever the call
    succeeds, some value was kept, the count is the number of values kept,
    and they are the values of the predicate that has been set. *)
Theorem apply_filter_drops_nulls
    (l : Host.layer) (pk_index : nat) (others : list nat) (pk_field : string) :
  Host.editable l = false ->
  Host.selected l <> [] ->
  Host.pk_attributes l = pk_index :: others ->
  nth_error (Host.field_names l) pk_index = Some pk_field ->
  let pk_values := Words.retained (Host.field_names l) pk_field (Host.selected l) in
  SelectionManager.collect_pk_values (Host.field_names l) pk_field (Host.selected l) []
    = Py.Returned pk_values /\
  (forall v,
     In v pk_values <->
     (exists f, In f (Host.selected l) /\
                Words.key_value (Host.field_names l) pk_field f = v) /\
     v <> Py.None_ /\ v <> Py.QNull) /\
  exists l' r,
    SelectionManager.apply_filter_to_selection (Some l) = (Some l', Py.Returned r) /\
    (pk_values = [] ->
     r = (false, 0, "No valid primary key values found in selected features") /\
     Host.subset l' = Host.subset l) /\
    (pk_values <> [] ->
     forallb Words.is_str pk_values = true \/ forallb Words.is_int pk_values = true ->
     r = (true, Z.of_nat (List.length pk_values), EmptyString) /\
     Host.subset l' = Words.in_predicate pk_field (List.map Words.literal pk_values)) /\
    (fst (fst r) = true ->
     pk_values <> [] /\
     snd (fst r) = Z.of_nat (List.length pk_values) /\
     exists values,
       SelectionManager.value_list pk_values = Py.Returned values /\
       Host.subset l'
       = Py.dquote ++ pk_field ++ Py.dquote ++ " IN (" ++ values ++ ")").
Proof.
  intros He Hsel Hpk Hfield pk_values. split; [|split].
  - destruct (lookupField_nth_error _ _ _ Hfield) as [j Hj].
    now rewrite (collect_pk_values_retained _ _ j) by exact Hj.
  - intros v. apply retained_exactly.
  - rewrite (apply_filter_run l pk_index others pk_field He Hsel Hpk Hfield).
    fold pk_values. destruct pk_values as [|v vs] eqn:Hv.
    + do 2 eexists. split; [reflexivity|].
      split; [now intros _|]. split; [now intros []|discriminate].
    + destruct (SelectionManager.value_list (v :: vs)) as [values|e] eqn:Hvl.
      * do 2 eexists. split; [reflexivity|]. split; [discriminate|]. split.
        -- intros _ Hkind. split; [reflexivity|].
           assert (Hlit : SelectionManager.value_list (v :: vs)
                          = Py.Returned (Py.join "," (List.map Words.literal (v :: vs)))).
           { destruct Hkind as [Hs|Hi];
               [now apply value_list_strings | now apply value_list_numbers]. }
           rewrite Hvl in Hlit. injection Hlit as ->. reflexivity.
        -- intros _. split; [discriminate|]. split; [reflexivity|].
           exists values. now split.
      * do 2 eexists. split; [reflexivity|]. split; [discriminate|]. split.
        -- intros _ Hkind. exfalso.
           assert (Hlit : SelectionManager.value_list (v :: vs)
                          = Py.Returned (Py.join "," (List.map Words.literal (v :: vs)))).
           { destruct Hkind as [Hs|Hi];
               [now apply value_list_strings | now apply value_list_numbers]. }
           rewrite Hvl in Hlit. discriminate Hlit.
        -- discriminate.
Qed.

Lemma apply_filter_drops_nulls_witness :
  Words.retained (Host.field_names Demo.roads) "pk" (Host.selected Demo.roads)
    = [Py.Int 3; Py.Int 7; Py.Int 7] /\
  exists l',
    SelectionManager.apply_filter_to_selection (Some Demo.roads)
    = (Some l', Py.Returned (true, 3, EmptyString)) /\
    Host.subset l' = Py.dquote ++ "pk" ++ Py.dquote ++ " IN (3,7,7)".
Proof.
  split; [vm_compute; reflexivity|].
  destruct (apply_filter_drops_nulls Demo.roads 0%nat [] "pk")
    as (_ & _ & l' & r & Hrun & _ & Hok & _).
  - reflexivity.
  - vm_compute. discriminate.
  - reflexivity.
  - reflexivity.
  - destruct Hok as [-> Hsub].
    + vm_compute. discriminate.
    + right. vm_compute. reflexivity.
    + exists l'. split; [exact Hrun|]. rewrite Hsub. vm_compute. reflexivity.
Defined.

(** The example of the specification: keys 3, 7, 7 and [None]. *)
Example apply_filter_roads :
  exists l',
    SelectionManager.apply_filter_to_selection (Some Demo.roads)
    = (Some l', Py.Returned (true, 3, EmptyString)) /\
    Host.subset l' = Py.dquote ++ "pk" ++ Py.dquote ++ " IN (3,7,7)".
Proof. eexists. split; vm_compute; reflexivity. Qed.

(** Only null keys: the call fails and sets no filter. *)
Example apply_filter_nulls :
  exists l',
    SelectionManager.apply_filter_to_selection (Some Demo.nulls)
    = (Some l',
       Py.Returned (false, 0, "No valid primary key values found in selected features")) /\
    Host.subset l' = EmptyString.
Proof. eexists. split; vm_compute; reflexivity. Qed.

(** C3: the values kept are those of one field, and so of one type, all
    texts or all numbers; the call then succeeds and the subset filter of
    the layer becomes ["pk_field" IN (v1,v2,...)], each text single-quoted
    with its single quotes doubled and each number bare; setting it is the
    last host call. *)
Theorem apply_filter_predicate
    (l : Host.layer) (pk_index : nat) (others : list nat) (pk_field : string) :
  Host.editable l = false ->
  Host.selected l <> [] ->
  Host.pk_attributes l = pk_index :: others ->
  nth_error (Host.field_names l) pk_index = Some pk_field ->
  let pk_values := Words.retained (Host.field_names l) pk_field (Host.selected l) in
  pk_values <> [] ->
  forallb Words.is_str pk_values = true \/ forallb Words.is_int pk_values = true ->
  let predicate := Words.in_predicate pk_field (List.map Words.literal pk_values) in
  exists l',
    SelectionManager.apply_filter_to_selection (Some l)
    = (Some l', Py.Returned (true, Z.of_nat (List.length pk_values), EmptyString)) /\
    Host.subset l' = predicate /\
    Host.calls l'
    = (Host.calls l ++
       [Host.IsEditable; Host.SelectedFeatures; Host.PrimaryKeyAttributes;
        Host.Fields; Host.SetSubsetString predicate])%list.
Proof.
  intros He Hsel Hpk Hfield pk_values Hne Hkind predicate.
  assert (Hvl : SelectionManager.value_list pk_values
                = Py.Returned (Py.join "," (List.map Words.literal pk_values))).
  { destruct Hkind as [Hs|Hi];
      [now apply value_list_strings | now apply value_list_numbers]. }
  rewrite (apply_filter_run l pk_index others pk_field He Hsel Hpk Hfield).
  fold pk_values. destruct pk_values as [|v vs] eqn:Hv; [now destruct Hne|].
  rewrite Hvl. cbv zeta. eexists. split; [reflexivity|].
  cbn [Host.subset Host.calls Host.logMessage Host.with_subset Host.record].
  split; [reflexivity|]. subst predicate. unfold Words.in_predicate.
  now rewrite <- !app_assoc.
Qed.

Lemma apply_filter_predicate_witness :
  Words.retained (Host.field_names Demo.roads_by_label) "label"
                 (Host.selected Demo.roads_by_label)
    = [Py.Str "a"; Py.Str "b'c"; Py.Str "d"; Py.Str "e"] /\
  exists l',
    SelectionManager.apply_filter_to_selection (Some Demo.roads_by_label)
    = (Some l', Py.Returned (true, 4, EmptyString)) /\
    Host.subset l' = Py.dquote ++ "label" ++ Py.dquote ++ " IN ('a','b''c','d','e')".
Proof.
  split; [vm_compute; reflexivity|].
  destruct (apply_filter_predicate Demo.roads_by_label 1%nat [] "label")
    as (l' & Hrun & Hsub & _).
  - reflexivity.
  - vm_compute. discriminate.
  - reflexivity.
  - reflexivity.
  - vm_compute. discriminate.
  - left. vm_compute. reflexivity.
  - exists l'. split; [exact Hrun|]. rewrite Hsub. vm_compute. reflexivity.
Defined.

(** A key column that holds a number and then a text is outside the data
    model; on such a column the format of the first value kept is used
    for all of them. *)
Example apply_filter_mixed_values :
  Words.retained (Host.field_names Demo.mixed) "pk" (Host.selected Demo.mixed)
    = [Py.Int 1; Py.Str "a'b"] /\
  exists l',
    SelectionManager.apply_filter_to_selection (Some Demo.mixed)
    = (Some l', Py.Returned (true, 2, EmptyString)) /\
    Host.subset l' = Py.dquote ++ "pk" ++ Py.dquote ++ " IN (1,a'b)" /\
    Host.subset l'
    <> Words.in_predicate "pk" (List.map Words.literal [Py.Int 1; Py.Str "a'b"]).
Proof.
  split; [vm_compute; reflexivity|].
  eexists. split; [vm_compute; reflexivity|].
  split; [vm_compute; reflexivity|].
  vm_compute. discriminate.
Qed.

(** ** Clearing a filter *)





(** The sample with a filter in place: the identifiers are read under the
    filter, then the filter is reset, then they are selected. *)
Example clear_filter_and_select_roads :
  exists l',
    SelectionManager.clear_filter_and_select_features (Some Demo.roads_filtered)
    = (Some l', Py.Returned (true, 2, EmptyString)) /\
    Host.calls l'
    = [Host.SubsetString; Host.SubsetString; Host.GetFeatures;
       Host.SetSubsetString EmptyString; Host.SelectByIds [10; 11]] /\
    Host.subset l' = EmptyString /\ Host.selection l' = [10; 11].
Proof. eexists. repeat split; vm_compute; reflexivity. Qed.





(** ** Composite keys *)

(** How the key attributes after the first enter the call: not at all. *)
Lemma apply_filter_other_keys (l : Host.layer) (pk_index : nat) (others : list nat) :
  SelectionManager.apply_filter_to_selection
    (Some (Host.with_pk_attributes (pk_index :: others) l))
  = (option_map (Host.with_pk_attributes (pk_index :: others))
       (fst (SelectionManager.apply_filter_to_selection
               (Some (Host.with_pk_attributes [pk_index] l)))),
     snd (SelectionManager.apply_filter_to_selection
            (Some (Host.with_pk_attributes [pk_index] l)))).
Proof.
  destruct l as [nm ed sub fields pk data acc sel calls log].
  unfold SelectionManager.apply_filter_to_selection, Run.on, Run.bind,
    SelectionManager.has_edit_session, Run.isEditable, Run.selectedFeatures,
    Run.primaryKeyAttributes, Run.fields, Run.host, Run.try_except, Run.lift, Run.ret,
    Run.setSubsetString, PluginLogger.info, PluginLogger.error, Run.logMessage.
  answered.
  cbn [Host.editable Host.record Host.pk_attributes Host.field_names
       Host.with_pk_attributes Host.layer_name Host.subset Host.data Host.accepts
       Host.selection Host.calls Host.log].
  destruct ed; [reflexivity|].
  unfold Host.selected, Host.is_selected.
  cbn [Host.editable Host.record Host.pk_attributes Host.field_names
       Host.with_pk_attributes Host.layer_name Host.subset Host.data Host.accepts
       Host.selection Host.calls Host.log].
  generalize (List.filter (fun f => bool_decide (Host.id f ∈ sel)) data).
  intros [|f fs]; [reflexivity|].
  cbn [Host.editable Host.record Host.pk_attributes Host.field_names
       Host.with_pk_attributes Host.layer_name Host.subset Host.data Host.accepts
       Host.selection Host.calls Host.log].
  destruct (Host.fields_getitem fields pk_index) as [name|e]; [|destruct e; reflexivity].
  destruct (SelectionManager.collect_pk_values fields name (f :: fs) [])
    as [[|v vs]|e]; [reflexivity| |destruct e; reflexivity].
  destruct (SelectionManager.value_list (v :: vs)) as [values|e];
    [reflexivity|destruct e; reflexivity].
Qed.

(** C10: with the key [pk_index :: others], whatever [others] is, the
    predicate is built from the field at [pk_index] alone: once the guards
    have passed and values of one type are kept, its field name is the
    name of that field and its values are the values kept of that field,
    in encounter order; and the call returns what it returns with the key
    [[pk_index]] alone and leaves the layer in the same state, the list of
    key attributes apart. *)
Theorem apply_filter_first_key_only
    (l : Host.layer) (pk_index : nat) (others : list nat) :
  let composite := Host.with_pk_attributes (pk_index :: others) l in
  (forall pk_field,
     Host.editable l = false ->
     Host.selected l <> [] ->
     nth_error (Host.field_names l) pk_index = Some pk_field ->
     let pk_values := Words.retained (Host.field_names l) pk_field (Host.selected l) in
     pk_values <> [] ->
     forallb Words.is_str pk_values = true \/ forallb Words.is_int pk_values = true ->
     exists l',
       SelectionManager.apply_filter_to_selection (Some composite)
       = (Some l', Py.Returned (true, Z.of_nat (List.length pk_values), EmptyString)) /\
       Host.subset l' = Words.in_predicate pk_field (List.map Words.literal pk_values)) /\
  SelectionManager.apply_filter_to_selection (Some composite)
  = (option_map (Host.with_pk_attributes (pk_index :: others))
       (fst (SelectionManager.apply_filter_to_selection
               (Some (Host.with_pk_attributes [pk_index] l)))),
     snd (SelectionManager.apply_filter_to_selection
            (Some (Host.with_pk_attributes [pk_index] l)))).
Proof.
  intros composite. split; [|apply apply_filter_other_keys].
  intros pk_field He Hsel Hfield pk_values Hne Hkind.
  assert (Hvl : SelectionManager.value_list pk_values
                = Py.Returned (Py.join "," (List.map Words.literal pk_values))).
  { destruct Hkind as [Hs|Hi];
      [now apply value_list_strings | now apply value_list_numbers]. }
  rewrite (apply_filter_run composite pk_index others pk_field He Hsel eq_refl Hfield).
  change (Words.retained (Host.field_names composite) pk_field (Host.selected composite))
    with pk_values.
  destruct pk_values as [|v vs] eqn:Hv; [now destruct Hne|].
  rewrite Hvl. cbv zeta. eexists. split; reflexivity.
Qed.

Lemma apply_filter_first_key_only_witness :
  Words.retained (Host.field_names Demo.roads) "label" (Host.selected Demo.roads)
    = [Py.Str "a"; Py.Str "b'c"; Py.Str "d"; Py.Str "e"] /\
  exists l',
    SelectionManager.apply_filter_to_selection
      (Some (Host.with_pk_attributes [1%nat; 0%nat] Demo.roads))
    = (Some l', Py.Returned (true, 4, EmptyString)) /\
    Host.subset l' = Py.dquote ++ "label" ++ Py.dquote ++ " IN ('a','b''c','d','e')".
Proof.
  split; [vm_compute; reflexivity|].
  destruct (apply_filter_first_key_only Demo.roads 1%nat [0%nat]) as [Hbuilt _].
  destruct (Hbuilt "label") as (l' & Hrun & Hsub).
  - reflexivity.
  - vm_compute. discriminate.
  - reflexivity.
  - vm_compute. discriminate.
  - left. vm_compute. reflexivity.
  - exists l'. split; [exact Hrun|]. rewrite Hsub. vm_compute. reflexivity.
Defined.

(** The sample with the composite key is filtered like the sample keyed by
    its first field alone: the second key field shows nowhere. *)
Example apply_filter_roads_composite :
  exists l',
    SelectionManager.apply_filter_to_selection (Some Demo.roads_composite)
    = (Some l', Py.Returned (true, 3, EmptyString)) /\
    Host.subset l' = Py.dquote ++ "pk" ++ Py.dquote ++ " IN (3,7,7)".
Proof. eexists. split; vm_compute; reflexivity. Qed.

(** ** Further properties: expressions and operators *)

Lemma is_null_compatible_iff (operator : string) :
  OperatorManager.is_null_compatible operator = true <->
  operator = "=" \/ operator = "!=".
Proof.
  split.
  - intros Hc. destruct (decide (operator ∈ Words.registered)) as [Hin|Hn].
    + unfold Words.registered in Hin. rewrite !elem_of_cons, elem_of_nil in Hin.
      destruct Hin as [->|[->|[->|[->|[->|[->|[]]]]]]]; auto;
        vm_compute in Hc; discriminate Hc.
    + apply OPERATORS_unregistered in Hn.
      unfold OperatorManager.is_null_compatible, OperatorManager.get_null_sql in Hc.
      rewrite Hn in Hc. discriminate Hc.
  - intros [->| ->]; vm_compute; reflexivity.
Qed.

(** The operators with a NULL form are exactly [=] and [!=]: these two are
    valid operators whose NULL clauses are [IS NULL] and [IS NOT NULL], and
    for every other text the NULL-clause lookup gives nothing. *)
Theorem null_forms_exactly (operator : string) :
  (OperatorManager.is_null_compatible operator = true <->
   operator = "=" \/ operator = "!=") /\
  (OperatorManager.is_null_compatible operator = true ->
   OperatorManager.validate_operator operator = true) /\
  OperatorManager.get_null_sql operator
  = (if String.eqb operator "=" then Some "IS NULL"
     else if String.eqb operator "!=" then Some "IS NOT NULL"
     else None).
Proof.
  split; [apply is_null_compatible_iff|]. split.
  - intros Hc. apply is_null_compatible_iff in Hc as [->| ->]; vm_compute; reflexivity.
  - destruct (String.eqb_spec operator "=") as [->|H1]; [vm_compute; reflexivity|].
    destruct (String.eqb_spec operator "!=") as [->|H2]; [vm_compute; reflexivity|].
    destruct (OperatorManager.is_null_compatible operator) eqn:Hc.
    + apply is_null_compatible_iff in Hc as [?|?]; contradiction.
    + unfold OperatorManager.is_null_compatible in Hc.
      now destruct (OperatorManager.get_null_sql operator).
Qed.

(** [build_expression] raises exactly when the value is absent and the
    operator is neither [=] nor [!=]; what it raises then is the
    invalid-operator error naming the operator.  In particular the operator
    is not checked at all when there is a value. *)
Theorem build_expression_raises_exactly
    (field_name operator : string) (value : Py.value) :
  ((exists e, ExpressionBuilder.build_expression field_name operator value = Py.Raised e)
   <-> value = Py.None_ /\ operator <> "=" /\ operator <> "!=") /\
  (forall e,
     ExpressionBuilder.build_expression field_name operator value = Py.Raised e ->
     e = Py.ValueError
           ("Operator '" ++ operator ++ "' cannot be used with NULL values. "
            ++ "Only '=' (IS NULL) and '!=' (IS NOT NULL) are supported.")).
Proof.
  unfold ExpressionBuilder.build_expression, ExpressionBuilder._build_null_expression,
    ExpressionBuilder._build_string_expression,
    ExpressionBuilder._build_numeric_expression.
  destruct value as [|s|z|].
  - destruct (OperatorManager.is_null_compatible operator) eqn:Hc; cbn [negb].
    + split; [|discriminate]. split; [intros [e He]; discriminate He|].
      intros (_ & H1 & H2). apply is_null_compatible_iff in Hc as [?|?]; contradiction.
    + split; [|now intros e [= <-]]. split; [|eauto].
      intros _. split; [reflexivity|].
      split; intros ->; vm_compute in Hc; discriminate Hc.
  - split; [|discriminate]. split; [intros [e He]; discriminate He|].
    intros (H & _). discriminate H.
  - split; [|discriminate]. split; [intros [e He]; discriminate He|].
    intros (H & _). discriminate H.
  - split; [|discriminate]. split; [intros [e He]; discriminate He|].
    intros (H & _). discriminate H.
Qed.

(** For a number the expression is the quoted field, the operator and the
    decimal numeral of the number, unquoted; the display value is that
    numeral, and reading the numeral gives the number back. *)
Theorem build_expression_numeric (field_name operator : string) (z : Z) :
  exists numeral : string,
    ExpressionBuilder.build_expression field_name operator (Py.Int z)
    = Py.Returned
        (Py.dquote ++ field_name ++ Py.dquote ++ " " ++ operator ++ " " ++ numeral,
         numeral) /\
    option_map Z.of_int (NilEmpty.int_of_string numeral) = Some z.
Proof.
  exists (Py.str_of_Z z). split; [reflexivity|].
  unfold Py.str_of_Z. rewrite NilEmpty.isi. cbn [option_map].
  now rewrite DecimalZ.of_to.
Qed.

Lemma append_cancel_l (p s t : string) : p ++ s = p ++ t -> s = t.
Proof.
  induction p as [|c p IH]; [trivial|]. simpl. intros [= H]. now apply IH.
Qed.

Lemma append_quote_cancel_r (s t : string) : s ++ "'" = t ++ "'" -> s = t.
Proof.
  revert t. induction s as [|c s IH]; intros [|d t]; simpl; intros H.
  - reflexivity.
  - injection H as _ H. destruct t; discriminate H.
  - injection H as _ H. destruct s; discriminate H.
  - injection H as -> H. f_equal. now apply IH.
Qed.

Lemma doubled_injective (s t : string) : Words.doubled s = Words.doubled t -> s = t.
Proof.
  revert t. induction s as [|c s IH]; intros [|d t]; cbn [Words.doubled]; intros H.
  - reflexivity.
  - destruct (Ascii.eqb d "'"%char); discriminate H.
  - destruct (Ascii.eqb c "'"%char); discriminate H.
  - destruct (Ascii.eqb c "'"%char) eqn:Ec, (Ascii.eqb d "'"%char) eqn:Ed.
    + injection H as -> _ H. f_equal. now apply IH.
    + injection H as -> _. congruence.
    + injection H as -> _. congruence.
    + injection H as -> H. f_equal. now apply IH.
Qed.

(** Escaping loses nothing: two different texts never give the same
    expression for a field and an operator. *)
Theorem build_expression_string_injective
    (field_name operator value1 value2 : string) (e1 d1 e2 d2 : string) :
  ExpressionBuilder.build_expression field_name operator (Py.Str value1)
    = Py.Returned (e1, d1) ->
  ExpressionBuilder.build_expression field_name operator (Py.Str value2)
    = Py.Returned (e2, d2) ->
  value1 <> value2 ->
  e1 <> e2.
Proof.
  unfold ExpressionBuilder.build_expression,
    ExpressionBuilder._build_string_expression.
  rewrite !replace_quote_doubled. intros [= <- _] [= <- _] Hne H. apply Hne.
  apply doubled_injective, append_quote_cancel_r.
  now do 6 apply append_cancel_l in H.
Qed.

Lemma build_expression_string_injective_witness :
  "it's" <> "it''s" /\
  Py.dquote ++ "name" ++ Py.dquote ++ " = 'it''s'"
  <> Py.dquote ++ "name" ++ Py.dquote ++ " = 'it''''s'".
Proof.
  split; [discriminate|].
  apply (build_expression_string_injective "name" "=" "it's" "it''s"
           _ "'it's'" _ "'it''s'").
  - vm_compute. reflexivity.
  - vm_compute. reflexivity.
  - discriminate.
Defined.

(** ** Further properties: the settings store *)

Lemma set_operator_validated (operator : string)
    (settings : gmap string SettingsManager.qvalue) :
  SettingsManager.set_operator operator settings
  = if OperatorManager.validate_operator operator
    then <[SettingsManager.KEY_OPERATOR := SettingsManager.QStr operator]> settings
    else settings.
Proof.
  unfold SettingsManager.set_operator, SettingsManager.setValue.
  destruct (OperatorManager.validate_operator operator) eqn:Hv.
  - apply validate_operator_registered in Hv.
    now rewrite bool_decide_eq_true_2.
  - rewrite bool_decide_eq_false_2; [reflexivity|].
    intros Hin. apply validate_operator_registered in Hin. congruence.
Qed.

(** The settings store and the operator registry agree on what an operator
    is: [set_operator] stores a symbol exactly when [validate_operator]
    accepts it, [get_operator] then returns that symbol, and a symbol that
    is not accepted leaves the store as it was. *)
Theorem set_operator_agrees_with_registry (operator : string)
    (settings : gmap string SettingsManager.qvalue) :
  SettingsManager.get_operator (SettingsManager.set_operator operator settings)
  = (if OperatorManager.validate_operator operator
     then SettingsManager.QStr operator
     else SettingsManager.get_operator settings) /\
  (OperatorManager.validate_operator operator = false ->
   SettingsManager.set_operator operator settings = settings).
Proof.
  rewrite set_operator_validated.
  destruct (OperatorManager.validate_operator operator); split; try reflexivity.
  - unfold SettingsManager.get_operator, SettingsManager.value.
    now rewrite lookup_insert_eq.
  - discriminate.
Qed.

(** What is saved is what is read back: a layer identifier and a field name
    when they are not empty, an empty one leaving the saved value in place,
    and each of the three flags. *)
Theorem settings_round_trip (settings : gmap string SettingsManager.qvalue)
    (layer_id field_name : string) (flag : bool) :
  SettingsManager.get_current_layer (SettingsManager.set_current_layer layer_id settings)
  = (if String.eqb layer_id EmptyString
     then SettingsManager.get_current_layer settings
     else SettingsManager.QStr layer_id) /\
  SettingsManager.get_current_field (SettingsManager.set_current_field field_name settings)
  = (if String.eqb field_name EmptyString
     then SettingsManager.get_current_field settings
     else SettingsManager.QStr field_name) /\
  SettingsManager.get_hide_non_matching
    (SettingsManager.set_hide_non_matching flag settings) = flag /\
  SettingsManager.get_select_filtered
    (SettingsManager.set_select_filtered flag settings) = flag /\
  SettingsManager.get_advanced_collapsed
    (SettingsManager.set_advanced_collapsed flag settings) = flag.
Proof.
  unfold_settings. repeat apply conj.
  - destruct (String.eqb_spec layer_id EmptyString) as [->|Hne].
    + reflexivity.
    + rewrite bool_decide_eq_false_2 by exact Hne. now rewrite lookup_insert_eq.
  - destruct (String.eqb_spec field_name EmptyString) as [->|Hne].
    + reflexivity.
    + rewrite bool_decide_eq_false_2 by exact Hne. now rewrite lookup_insert_eq.
  - now rewrite lookup_insert_eq.
  - now rewrite lookup_insert_eq.
  - now rewrite lookup_insert_eq.
Qed.

(** Every setter writes under its own key only. *)
Lemma setters_frame (settings : gmap string SettingsManager.qvalue)
    (text : string) (flag : bool) (key : string) :
  (key <> SettingsManager.KEY_CURRENT_LAYER ->
   SettingsManager.set_current_layer text settings !! key = settings !! key) /\
  (key <> SettingsManager.KEY_CURRENT_FIELD ->
   SettingsManager.set_current_field text settings !! key = settings !! key) /\
  (key <> SettingsManager.KEY_HIDE_NON_MATCHING ->
   SettingsManager.set_hide_non_matching flag settings !! key = settings !! key) /\
  (key <> SettingsManager.KEY_SELECT_FILTERED ->
   SettingsManager.set_select_filtered flag settings !! key = settings !! key) /\
  (key <> SettingsManager.KEY_ADVANCED_COLLAPSED ->
   SettingsManager.set_advanced_collapsed flag settings !! key = settings !! key) /\
  (key <> SettingsManager.KEY_OPERATOR ->
   SettingsManager.set_operator text settings !! key = settings !! key).
Proof.
  unfold_settings. unfold SettingsManager.set_operator, SettingsManager.setValue.
  repeat apply conj; intros Hne;
    repeat case_bool_decide; try reflexivity;
    now rewrite lookup_insert_ne by congruence.
Qed.

(** Saving one setting never changes what the getters of the other five
    settings return. *)
Theorem setters_do_not_interfere (settings : gmap string SettingsManager.qvalue)
    (text : string) (flag : bool) :
  let layer_kept after :=
    SettingsManager.get_current_layer after = SettingsManager.get_current_layer settings in
  let field_kept after :=
    SettingsManager.get_current_field after = SettingsManager.get_current_field settings in
  let mode_kept after :=
    SettingsManager.get_hide_non_matching after
    = SettingsManager.get_hide_non_matching settings in
  let box_kept after :=
    SettingsManager.get_select_filtered after
    = SettingsManager.get_select_filtered settings in
  let operator_kept after :=
    SettingsManager.get_operator after = SettingsManager.get_operator settings in
  let advanced_kept after :=
    SettingsManager.get_advanced_collapsed after
    = SettingsManager.get_advanced_collapsed settings in
  (let after := SettingsManager.set_current_layer text settings in
   field_kept after /\ mode_kept after /\ box_kept after /\
   operator_kept after /\ advanced_kept after) /\
  (let after := SettingsManager.set_current_field text settings in
   layer_kept after /\ mode_kept after /\ box_kept after /\
   operator_kept after /\ advanced_kept after) /\
  (let after := SettingsManager.set_hide_non_matching flag settings in
   layer_kept after /\ field_kept after /\ box_kept after /\
   operator_kept after /\ advanced_kept after) /\
  (let after := SettingsManager.set_select_filtered flag settings in
   layer_kept after /\ field_kept after /\ mode_kept after /\
   operator_kept after /\ advanced_kept after) /\
  (let after := SettingsManager.set_operator text settings in
   layer_kept after /\ field_kept after /\ mode_kept after /\
   box_kept after /\ advanced_kept after) /\
  (let after := SettingsManager.set_advanced_collapsed flag settings in
   layer_kept after /\ field_kept after /\ mode_kept after /\
   box_kept after /\ operator_kept after).
Proof.
  cbv zeta. unfold_settings.
  unfold SettingsManager.set_operator, SettingsManager.setValue.
  repeat apply conj;
    repeat case_bool_decide;
    rewrite ?lookup_insert_ne by distinct_keys; reflexivity.
Qed.

Lemma reset_all_lookup (settings : gmap string SettingsManager.qvalue) (key : string) :
  key ∈ [SettingsManager.KEY_CURRENT_LAYER; SettingsManager.KEY_CURRENT_FIELD;
         SettingsManager.KEY_HIDE_NON_MATCHING; SettingsManager.KEY_SELECT_FILTERED;
         SettingsManager.KEY_OPERATOR; SettingsManager.KEY_ADVANCED_COLLAPSED] ->
  SettingsManager.reset_all settings !! key = None.
Proof.
  unfold SettingsManager.reset_all. cbn [foldl].
  rewrite !elem_of_cons, elem_of_nil.
  intros [->|[->|[->|[->|[->|[->|[]]]]]]];
    repeat (rewrite lookup_delete_ne by distinct_keys);
    apply lookup_delete_eq.
Qed.

(** After [reset_all] every getter answers its default, whatever was
    stored: no layer, no field, select mode, check box off, operator [=],
    advanced section collapsed; keys of other owners are left alone. *)
Theorem reset_all_defaults (settings : gmap string SettingsManager.qvalue) :
  let fresh := SettingsManager.reset_all settings in
  SettingsManager.get_current_layer fresh = SettingsManager.QStr EmptyString /\
  SettingsManager.get_current_field fresh = SettingsManager.QStr EmptyString /\
  SettingsManager.get_hide_non_matching fresh = false /\
  SettingsManager.get_select_filtered fresh = false /\
  SettingsManager.get_operator fresh = SettingsManager.QStr "=" /\
  SettingsManager.get_advanced_collapsed fresh = true /\
  (forall key : string,
     String.prefix "/SelectMatchingFeatures/" key = false ->
     fresh !! key = settings !! key).
Proof.
  cbv zeta. unfold_settings.
  repeat apply conj;
    try (rewrite reset_all_lookup; [reflexivity|];
         rewrite !elem_of_cons; tauto).
  intros key Hp. unfold SettingsManager.reset_all. cbn [foldl].
  rewrite !lookup_delete_ne; [reflexivity|..]; intros <-; vm_compute in Hp; discriminate Hp.
Qed.

(** ** Further properties: the dock widget *)

Lemma dock_operator_validated (self : DockWidget.widgets) :
  OperatorManager.validate_operator (DockWidget.get_operator self) = true.
Proof.
  unfold DockWidget.get_operator.
  destruct (DockWidget.grpAdvanced_isCollapsed self),
    (DockWidget.radioOpEqual self), (DockWidget.radioOpNotEqual self),
    (DockWidget.radioOpLessThan self), (DockWidget.radioOpGreaterThan self),
    (DockWidget.radioOpLessEqual self), (DockWidget.radioOpGreaterEqual self);
    vm_compute; reflexivity.
Qed.

(** Whatever the state of the radio buttons, the operator that the dock
    reports is one that the registry validates, and it is [=] when the
    advanced group is collapsed and when no radio button is checked. *)
Theorem dock_operator_always_valid (self : DockWidget.widgets) :
  OperatorManager.validate_operator (DockWidget.get_operator self) = true /\
  (DockWidget.grpAdvanced_isCollapsed self = true ->
   DockWidget.get_operator self = "=") /\
  (DockWidget.radioOpEqual self = false ->
   DockWidget.radioOpNotEqual self = false ->
   DockWidget.radioOpLessThan self = false ->
   DockWidget.radioOpGreaterThan self = false ->
   DockWidget.radioOpLessEqual self = false ->
   DockWidget.radioOpGreaterEqual self = false ->
   DockWidget.get_operator self = "=").
Proof.
  split; [apply dock_operator_validated|].
  unfold DockWidget.get_operator. repeat split.
  - now intros ->.
  - intros -> -> -> -> -> ->. now destruct (DockWidget.grpAdvanced_isCollapsed self).
Qed.

(** After [save_settings] the store holds what the dock shows: the operator
    that [get_operator] reports, the mode and the check box; the layer and
    the field when the combos have a non-empty one, and the saved ones
    otherwise.  The collapsed state of the advanced section is never
    written by it. *)
Theorem save_settings_stores (self : DockWidget.widgets)
    (settings : gmap string SettingsManager.qvalue) :
  let after := DockWidget.save_settings self settings in
  SettingsManager.get_operator after
    = SettingsManager.QStr (DockWidget.get_operator self) /\
  SettingsManager.get_hide_non_matching after = DockWidget.radioHideNonMatching self /\
  SettingsManager.get_select_filtered after = DockWidget.chkSelectFiltered self /\
  SettingsManager.get_advanced_collapsed after
    = SettingsManager.get_advanced_collapsed settings /\
  SettingsManager.get_current_layer after
    = match DockWidget.mLayerCombo_currentLayer self with
      | Some layer_id =>
          if String.eqb layer_id EmptyString
          then SettingsManager.get_current_layer settings
          else SettingsManager.QStr layer_id
      | None => SettingsManager.get_current_layer settings
      end /\
  SettingsManager.get_current_field after
    = (if String.eqb (DockWidget.mFieldCombo_currentField self) EmptyString
       then SettingsManager.get_current_field settings
       else SettingsManager.QStr (DockWidget.mFieldCombo_currentField self)).
Proof.
  cbv zeta. unfold DockWidget.save_settings.
  rewrite set_operator_validated, dock_operator_validated.
  unfold_settings.
  destruct (DockWidget.mLayerCombo_currentLayer self) as [layer_id|];
    [destruct (String.eqb_spec layer_id EmptyString) as [->|Hl]|];
    destruct (String.eqb_spec (DockWidget.mFieldCombo_currentField self) EmptyString)
      as [Hf|Hf];
    repeat case_bool_decide; try congruence;
    repeat apply conj;
    repeat (first [rewrite lookup_insert_eq | rewrite lookup_insert_ne by distinct_keys]);
    reflexivity.
Qed.

(** ** Further properties: the selection manager *)

(** What [apply_filter_to_selection] does on a layer, guard by guard. *)
Lemma apply_filter_guards (l : Host.layer) :
  let asked := Host.record Host.IsEditable l in
  let listed := Host.record Host.SelectedFeatures asked in
  let keyed := Host.record Host.PrimaryKeyAttributes listed in
  let consulted := Host.record Host.Fields keyed in
  SelectionManager.apply_filter_to_selection (Some l) =
    if Host.editable l then
      (Some asked,
       Py.Returned
         (false, 0, "Filter cannot be applied: Layer has an active edit session"))
    else
      match Host.selected l with
      | [] => (Some listed, Py.Returned (false, 0, "No features selected"))
      | _ :: _ =>
          match Host.pk_attributes l with
          | [] => (Some keyed, Py.Returned (false, 0, "Layer has no primary key"))
          | pk_index :: _ =>
              match nth_error (Host.field_names l) pk_index with
              | None =>
                  let error_msg :=
                    "Primary key field not found: sequence index out of range" in
                  (Some (Host.logMessage Host.LogCritical error_msg consulted),
                   Py.Returned (false, 0, error_msg))
              | Some _ => SelectionManager.apply_filter_to_selection (Some l)
              end
          end
      end.
Proof.
  cbv zeta.
  destruct (Host.editable l) eqn:He; [now apply apply_filter_editing_run|].
  destruct (Host.selected l) as [|f fs] eqn:Hsel.
  - unfold SelectionManager.apply_filter_to_selection, Run.on, Run.bind,
      SelectionManager.has_edit_session, Run.isEditable, Run.selectedFeatures, Run.host.
    answered.
    cbn [Host.editable Host.record]. rewrite He.
    change (Host.selected (Host.record Host.SelectedFeatures
                             (Host.record Host.IsEditable l)))
      with (Host.selected l).
    now rewrite Hsel.
  - destruct (Host.pk_attributes l) as [|pk_index others] eqn:Hpk.
    + unfold SelectionManager.apply_filter_to_selection, Run.on, Run.bind,
        SelectionManager.has_edit_session, Run.isEditable, Run.selectedFeatures,
        Run.primaryKeyAttributes, Run.host.
      answered.
      cbn [Host.editable Host.record]. rewrite He.
      change (Host.selected (Host.record Host.SelectedFeatures
                               (Host.record Host.IsEditable l)))
        with (Host.selected l).
      rewrite Hsel. cbn [Host.pk_attributes Host.record]. now rewrite Hpk.
    + destruct (nth_error (Host.field_names l) pk_index) as [name|] eqn:Hf;
        [reflexivity|].
      unfold SelectionManager.apply_filter_to_selection, Run.on, Run.bind,
        SelectionManager.has_edit_session, Run.isEditable, Run.selectedFeatures,
        Run.primaryKeyAttributes, Run.fields, Run.host, Run.try_except, Run.lift.
      answered.
      cbn [Host.editable Host.record]. rewrite He.
      change (Host.selected (Host.record Host.SelectedFeatures
                               (Host.record Host.IsEditable l)))
        with (Host.selected l).
      rewrite Hsel. cbn [Host.pk_attributes Host.record]. rewrite Hpk.
      cbn [Host.field_names Host.record]. unfold Host.fields_getitem. rewrite Hf.
      reflexivity.
Qed.

(** Every outcome of [apply_filter_to_selection] on a layer, with what it
    leaves behind: [made] are the host calls it has added. *)
Lemma apply_filter_outcomes (l : Host.layer) :
  exists (l' : Host.layer) (success : bool) (count : Z) (message : string)
         (made : list Host.call),
    SelectionManager.apply_filter_to_selection (Some l)
    = (Some l', Py.Returned (success, count, message)) /\
    Host.selection l' = Host.selection l /\
    Host.editable l' = Host.editable l /\
    Host.calls l' = (Host.calls l ++ made)%list /\
    (success = false ->
     count = 0 /\ message <> EmptyString /\
     Host.subset l' = Host.subset l /\ existsb Words.mutates made = false) /\
    (success = true ->
     1 <= count /\ message = EmptyString /\ Host.subset l' <> EmptyString /\
     made = [Host.IsEditable; Host.SelectedFeatures; Host.PrimaryKeyAttributes;
             Host.Fields; Host.SetSubsetString (Host.subset l')]).
Proof.
  rewrite apply_filter_guards. cbv zeta.
  destruct (Host.editable l) eqn:He.
  { exists (Host.record Host.IsEditable l), false, 0,
      "Filter cannot be applied: Layer has an active edit session", [Host.IsEditable].
    repeat split; try discriminate; auto. }
  destruct (Host.selected l) as [|f fs] eqn:Hsel.
  { exists (Host.record Host.SelectedFeatures (Host.record Host.IsEditable l)),
      false, 0, "No features selected", [Host.IsEditable; Host.SelectedFeatures].
    repeat split; try discriminate; auto.
    cbn [Host.calls Host.record]. now rewrite <- app_assoc. }
  destruct (Host.pk_attributes l) as [|pk_index others] eqn:Hpk.
  { exists (Host.record Host.PrimaryKeyAttributes
              (Host.record Host.SelectedFeatures (Host.record Host.IsEditable l))),
      false, 0, "Layer has no primary key",
      [Host.IsEditable; Host.SelectedFeatures; Host.PrimaryKeyAttributes].
    repeat split; try discriminate; auto.
    cbn [Host.calls Host.record]. now rewrite <- !app_assoc. }
  destruct (nth_error (Host.field_names l) pk_index) as [pk_field|] eqn:Hf.
  2:{ eexists _, false, 0, _,
        [Host.IsEditable; Host.SelectedFeatures; Host.PrimaryKeyAttributes; Host.Fields].
      split; [reflexivity|].
      cbn [Host.selection Host.editable Host.calls Host.subset Host.logMessage Host.record].
      repeat split; try discriminate; auto. now rewrite <- !app_assoc. }
  assert (Hne : Host.selected l <> []) by (rewrite Hsel; discriminate).
  rewrite (apply_filter_run l pk_index others pk_field He Hne Hpk Hf). cbv zeta.
  destruct (Words.retained (Host.field_names l) pk_field (Host.selected l))
    as [|v vs] eqn:Hret.
  { eexists _, false, 0, _,
      [Host.IsEditable; Host.SelectedFeatures; Host.PrimaryKeyAttributes; Host.Fields].
    split; [reflexivity|].
    cbn [Host.selection Host.editable Host.calls Host.subset Host.record].
    repeat split; try discriminate; auto. now rewrite <- !app_assoc. }
  destruct (SelectionManager.value_list (v :: vs)) as [values|e] eqn:Hvl.
  - eexists _, true, _, _, _.
    split; [reflexivity|].
    cbn [Host.selection Host.editable Host.calls Host.subset Host.record
         Host.logMessage Host.with_subset].
    split; [reflexivity|]. split; [exact He|].
    split; [rewrite <- !app_assoc; reflexivity|].
    split; [discriminate|]. intros _.
    split; [cbn [List.length]; lia|]. split; [reflexivity|].
    split; [unfold Py.dquote; simpl; discriminate|]. reflexivity.
  - eexists _, false, 0, _,
      [Host.IsEditable; Host.SelectedFeatures; Host.PrimaryKeyAttributes; Host.Fields].
    split; [reflexivity|].
    cbn [Host.selection Host.editable Host.calls Host.subset Host.record Host.logMessage].
    repeat split; try discriminate; auto. now rewrite <- !app_assoc.
Qed.

(** On every host [apply_filter_to_selection] leaves the selection as it
    was.  A success has a count of at least 1, an empty message, and a
    filter that is not empty and was set by the last host call.  A failure
    has the count 0 and a message that is not empty.  When the host takes
    the information line, a call that does not succeed leaves the subset
    filter as it was, so that a failure with the filter set can only come
    from the log line that follows [setSubsetString]; when the host does
    not refuse [setSubsetString] either, such a call has made no host call
    that changes the layer.  The call returns, rather than raises, whenever
    the host answers the three queries made before the [try] and takes the
    error line. *)
Theorem apply_filter_all_or_nothing {host_faults : Host.faults} (l : Host.layer) :
  exists l' o made,
    SelectionManager.apply_filter_to_selection (Some l) = (Some l', o) /\
    Host.selection l' = Host.selection l /\
    Host.calls l' = (Host.calls l ++ made)%list /\
    (forall count message,
       o = Py.Returned (true, count, message) ->
       1 <= count /\ message = EmptyString /\ Host.subset l' <> EmptyString /\
       List.last made Host.IsEditable = Host.SetSubsetString (Host.subset l')) /\
    (forall count message,
       o = Py.Returned (false, count, message) ->
       count = 0 /\ message <> EmptyString) /\
    ((forall m l0, Host.log_raises Host.LogInfo m l0 = None) ->
     (forall count message, o <> Py.Returned (true, count, message)) ->
     Host.subset l' = Host.subset l /\
     ((forall s l0, Host.call_raises (Host.SetSubsetString s) l0 = None) ->
      existsb Words.mutates made = false)) /\
    ((forall l0, Host.call_raises Host.IsEditable l0 = None) ->
     (forall l0, Host.call_raises Host.SelectedFeatures l0 = None) ->
     (forall l0, Host.call_raises Host.PrimaryKeyAttributes l0 = None) ->
     (forall m l0, Host.log_raises Host.LogCritical m l0 = None) ->
     exists r, o = Py.Returned r).
Proof.
  unfold SelectionManager.apply_filter_to_selection, Run.on, Run.bind,
    SelectionManager.has_edit_session, Run.isEditable, Run.selectedFeatures,
    Run.primaryKeyAttributes, Run.fields, Run.setSubsetString, Run.host,
    Run.try_except, Run.lift, Run.ret, PluginLogger.info, PluginLogger.error,
    Run.logMessage.
  repeat apply_step; host_reduce.
  all: eexists _, _, _; (split; [reflexivity|]).
  all: (split; [reflexivity|]).
  all: (split;
        [cbn [Host.calls Host.record Host.logMessage Host.with_subset];
         rewrite <- ?app_assoc; reflexivity|]).
  all: cbn [app].
  all: (split;
        [intros count message Hok;
         first [discriminate Hok
               |injection Hok as <- <-;
                split; [cbn [List.length]; lia|];
                split; [reflexivity|];
                split; [unfold Py.dquote; simpl; discriminate|reflexivity]]|]).
  all: (split;
        [intros count message Hno;
         first [discriminate Hno
               |injection Hno as <- <-; split; [reflexivity|simpl; discriminate]]|]).
  all: split.
  all: try (intros Hinfo Hno;
            first [refused_but_answered
                  |now destruct (Hno _ _ eq_refl)
                  |split; [reflexivity|]; intros Hset;
                   first [refused_but_answered|reflexivity]]).
  all: intros H1 H2 H3 Hl; first [refused_but_answered|eexists; reflexivity].
Qed.

Lemma apply_filter_all_or_nothing_witness :
  exists l' message,
    SelectionManager.apply_filter_to_selection (host_faults := Demo.filter_refused)
      (Some Demo.roads)
    = (Some l', Py.Returned (false, 0, message)) /\
    message <> EmptyString /\
    Host.subset l' = Host.subset Demo.roads /\
    Host.selection l' = Host.selection Demo.roads.
Proof.
  destruct (apply_filter_all_or_nothing (host_faults := Demo.filter_refused)
              Demo.roads)
    as (l' & o & made & Hrun & Hsel & _ & _ & Hfail & Hkept & _).
  assert (Ho : o = Py.Returned (false, 0, "Failed to apply filter: filter refused")).
  { vm_compute in Hrun. now injection Hrun as _ <-. }
  exists l', "Failed to apply filter: filter refused".
  split; [now rewrite <- Ho|].
  split; [exact (proj2 (Hfail _ _ Ho))|].
  split; [|exact Hsel].
  apply Hkept; [reflexivity|]. intros count message. rewrite Ho. discriminate.
Defined.

(** A filter that has just been applied is an active filter: after a
    success [has_active_filter] answers true, and on the layer as it was
    left a second application is still not refused for an edit session. *)
Theorem applied_filter_is_active (l l' : Host.layer) (count : Z) (message : string) :
  SelectionManager.apply_filter_to_selection (Some l)
  = (Some l', Py.Returned (true, count, message)) ->
  snd (SelectionManager.has_active_filter (Some l')) = Py.Returned true /\
  Host.editable l' = false.
Proof.
  intros Hrun.
  destruct (apply_filter_outcomes l)
    as (l2 & success & c & m & made & Hrun2 & _ & Hed & _ & _ & Hok).
  rewrite Hrun in Hrun2. injection Hrun2 as <- <- <- <-.
  destruct (Hok eq_refl) as (_ & _ & Hsub & _).
  split.
  - unfold SelectionManager.has_active_filter, Run.on, Run.bind, Run.subsetString,
      Run.host, Run.ret.
    answered.
    cbn [Host.subset Host.record snd].
    now rewrite bool_decide_eq_false_2.
  - rewrite Hed. destruct (Host.editable l) eqn:He; [|reflexivity].
    rewrite (apply_filter_editing_run l He) in Hrun. discriminate Hrun.
Qed.

Lemma applied_filter_is_active_witness :
  exists l',
    SelectionManager.apply_filter_to_selection (Some Demo.roads)
    = (Some l', Py.Returned (true, 3, EmptyString)) /\
    snd (SelectionManager.has_active_filter (Some l')) = Py.Returned true.
Proof.
  eexists. split; [vm_compute; reflexivity|].
  eapply (applied_filter_is_active Demo.roads). vm_compute. reflexivity.
Defined.

(** The values kept by the loop are never null. *)
Lemma retained_not_null (fields : list string) (pk_field : string)
    (features : list Host.feature) (v : Py.value) :
  In v (Words.retained fields pk_field features) -> SelectionManager.is_null v = false.
Proof.
  unfold Words.retained. rewrite filter_In. intros [_ H].
  rewrite is_null_null. now destruct (Words.null v).
Qed.

(** Escaping a list that holds a value without [replace] raises. *)
Lemma comprehension_replace_raises (pk_values : list Py.value) :
  (forall v, In v pk_values -> SelectionManager.is_null v = false) ->
  forallb Words.is_str pk_values = false ->
  Py.comprehension (Py.value_replace "'" "''") pk_values
  = Py.Raised (Py.AttributeError "'int' object has no attribute 'replace'").
Proof.
  induction pk_values as [|v vs IH]; [discriminate|].
  intros Hnn Hall. cbn [forallb] in Hall. cbn [Py.comprehension].
  destruct v as [|s|z|].
  - specialize (Hnn Py.None_ (or_introl eq_refl)). discriminate Hnn.
  - cbn [Py.value_replace]. cbn [Words.is_str andb] in Hall.
    rewrite IH; [reflexivity| |exact Hall].
    intros v Hv. apply Hnn. now right.
  - reflexivity.
  - specialize (Hnn Py.QNull (or_introl eq_refl)). discriminate Hnn.
Qed.

(** When the first key kept is a text and a later one is a number, the
    call fails: escaping stops at the number, the failure is caught, logged
    and reported, and no filter is set. *)
Theorem apply_filter_text_then_number
    (l : Host.layer) (pk_index : nat) (others : list nat) (pk_field : string)
    (first : string) (later : list Py.value) :
  Host.editable l = false ->
  Host.selected l <> [] ->
  Host.pk_attributes l = pk_index :: others ->
  nth_error (Host.field_names l) pk_index = Some pk_field ->
  Words.retained (Host.field_names l) pk_field (Host.selected l)
    = Py.Str first :: later ->
  forallb Words.is_str later = false ->
  let message :=
    "Failed to apply filter: 'int' object has no attribute 'replace'" in
  exists l',
    SelectionManager.apply_filter_to_selection (Some l)
    = (Some l', Py.Returned (false, 0, message)) /\
    Host.subset l' = Host.subset l /\
    Host.log l' = (Host.log l ++ [(Host.LogCritical, message)])%list.
Proof.
  intros He Hsel Hpk Hf Hret Hlater message.
  rewrite (apply_filter_run l pk_index others pk_field He Hsel Hpk Hf). cbv zeta.
  rewrite Hret.
  assert (Hvl : SelectionManager.value_list (Py.Str first :: later)
                = Py.Raised (Py.AttributeError "'int' object has no attribute 'replace'")).
  { unfold SelectionManager.value_list.
    rewrite comprehension_replace_raises; [reflexivity| |exact Hlater].
    intros v Hv. apply (retained_not_null (Host.field_names l) pk_field (Host.selected l)).
    now rewrite Hret. }
  rewrite Hvl. eexists. split; [reflexivity|]. now split.
Qed.

Lemma apply_filter_text_then_number_witness :
  let l := Host.with_selection [2; 1]
             (Host.Layer "mixed" false "old" ["pk"] [0%nat]
                [Host.Feature 2 [Py.Str "a'b"]; Host.Feature 1 [Py.Int 1]]
                Demo.low_ids [] [] []) in
  exists l',
    SelectionManager.apply_filter_to_selection (Some l)
    = (Some l',
       Py.Returned
         (false, 0, "Failed to apply filter: 'int' object has no attribute 'replace'")) /\
    Host.subset l' = "old".
Proof.
  cbv zeta.
  edestruct (apply_filter_text_then_number
               (Host.with_selection [2; 1]
                  (Host.Layer "mixed" false "old" ["pk"] [0%nat]
                     [Host.Feature 2 [Py.Str "a'b"]; Host.Feature 1 [Py.Int 1]]
                     Demo.low_ids [] [] []))
               0%nat [] "pk" "a'b" [Py.Int 1]) as (l' & Hrun & Hsub & _).
  - reflexivity.
  - vm_compute. discriminate.
  - reflexivity.
  - reflexivity.
  - vm_compute. reflexivity.
  - reflexivity.
  - exists l'. split; [exact Hrun|exact Hsub].
Defined.

(** A key attribute whose index is beyond the fields of the layer: the
    index error is caught and reported as a missing primary-key field, the
    error is logged, and no filter is set. *)
Theorem apply_filter_key_out_of_range
    (l : Host.layer) (pk_index : nat) (others : list nat) :
  Host.editable l = false ->
  Host.selected l <> [] ->
  Host.pk_attributes l = pk_index :: others ->
  (List.length (Host.field_names l) <= pk_index)%nat ->
  exists l' detail,
    SelectionManager.apply_filter_to_selection (Some l)
    = (Some l', Py.Returned (false, 0, "Primary key field not found: " ++ detail)) /\
    Host.subset l' = Host.subset l /\
    Host.log l'
    = (Host.log l
       ++ [(Host.LogCritical, ("Primary key field not found: " ++ detail)%string)])%list.
Proof.
  intros He Hsel Hpk Hlen.
  rewrite apply_filter_guards. cbv zeta. rewrite He, Hpk.
  destruct (Host.selected l) as [|f fs]; [now destruct Hsel|].
  apply nth_error_None in Hlen. rewrite Hlen.
  exists (Host.logMessage Host.LogCritical
            "Primary key field not found: sequence index out of range"
            (Host.record Host.Fields
               (Host.record Host.PrimaryKeyAttributes
                  (Host.record Host.SelectedFeatures (Host.record Host.IsEditable l))))),
    "sequence index out of range".
  repeat split.
Qed.

Lemma apply_filter_key_out_of_range_witness :
  exists l' detail,
    SelectionManager.apply_filter_to_selection
      (Some (Host.with_pk_attributes [5%nat] Demo.roads))
    = (Some l', Py.Returned (false, 0, "Primary key field not found: " ++ detail)) /\
    Host.subset l' = EmptyString.
Proof.
  destruct (apply_filter_key_out_of_range
              (Host.with_pk_attributes [5%nat] Demo.roads) 5%nat [])
    as (l' & detail & Hrun & Hsub & _).
  - reflexivity.
  - vm_compute. discriminate.
  - reflexivity.
  - vm_compute. lia.
  - exists l', detail. split; [exact Hrun|exact Hsub].
Defined.

(** What [has_active_filter] and [get_filtered_feature_ids] answer. *)
Lemma has_active_filter_run (l : Host.layer) :
  SelectionManager.has_active_filter (Some l)
  = (Some (Host.record Host.SubsetString l),
     Py.Returned (negb (bool_decide (Host.subset l = EmptyString)))).
Proof. reflexivity. Qed.

Lemma get_filtered_feature_ids_run (l : Host.layer) :
  SelectionManager.get_filtered_feature_ids (Some l)
  = if bool_decide (Host.subset l = EmptyString)
    then (Some (Host.record Host.SubsetString l), Py.Returned [])
    else
      let ids := List.map Host.id (Host.visible l) in
      (Some (Host.logMessage Host.LogInfo
               ("Retrieved " ++ Py.str_of_Z (Z.of_nat (List.length ids))
                ++ " filtered feature IDs")
               (Host.record Host.GetFeatures (Host.record Host.SubsetString l))),
       Py.Returned ids).
Proof.
  unfold SelectionManager.get_filtered_feature_ids, Run.on, Run.bind, Run.try_except,
    Run.subsetString, Run.getFeatures, Run.host, Run.ret, PluginLogger.info, Run.logMessage.
  answered.
  cbn [Host.subset Host.record].
  now destruct (bool_decide (Host.subset l = EmptyString)).
Qed.



(** [clear_selection] empties the selection and leaves the filter; on the
    layer it leaves, applying a filter is refused: for the edit session if
    there is one, and otherwise because no feature is selected. *)
Theorem clear_selection_then_apply (l : Host.layer) :
  exists l1,
    SelectionManager.clear_selection (Some l) = (Some l1, Py.Returned true) /\
    Host.selection l1 = [] /\
    Host.subset l1 = Host.subset l /\
    snd (SelectionManager.apply_filter_to_selection (Some l1))
    = Py.Returned
        (false, 0,
         if Host.editable l
         then "Filter cannot be applied: Layer has an active edit session"
         else "No features selected").
Proof.
  eexists. split; [reflexivity|].
  cbn [Host.selection Host.subset Host.record Host.with_selection].
  split; [reflexivity|]. split; [reflexivity|].
  rewrite apply_filter_guards. cbv zeta.
  cbn [Host.editable Host.record Host.with_selection].
  destruct (Host.editable l); [reflexivity|].
  match goal with
  | |- context [Host.selected ?x] =>
      replace (Host.selected x) with (@nil Host.feature); [reflexivity|]
  end.
  unfold Host.selected, Host.is_selected.
  cbn [Host.selection Host.data Host.record Host.with_selection].
  induction (Host.data l) as [|f fs IH]; [reflexivity|].
  cbn [List.filter]. rewrite bool_decide_eq_false_2; [exact IH|].
  apply not_elem_of_nil.
Qed.

(** On every host [select_all_in_filter] leaves the filter as it was, and
    what it returns is the error value -1 or the number of features that
    the filter lets through, which are then the features selected.  When
    the host refuses [selectAll] the selection is what it was and, the
    error line once logged, -1 is returned.  The call returns, rather than
    raises, whenever the host takes the error line.  On a host that
    answers every call it selects the features that the filter lets
    through and returns their number.  Without a layer it returns -1. *)
Theorem select_all_in_filter_counts {host_faults : Host.faults} (l : Host.layer) :
  let ids := List.map Host.id (Host.visible l) in
  (exists l' o,
     SelectionManager.select_all_in_filter (Some l) = (Some l', o) /\
     Host.subset l' = Host.subset l /\
     (forall count,
        o = Py.Returned count ->
        count = -1 \/
        (count = Z.of_nat (List.length ids) /\ Host.selection l' = ids)) /\
     (forall e,
        Host.call_raises Host.SelectAll l = Some e ->
        let error_msg := "Error selecting filtered features: " ++ Py.str_of_exn e in
        Host.selection l' = Host.selection l /\
        (Host.log_raises Host.LogCritical error_msg (Host.record Host.SelectAll l) = None ->
         o = Py.Returned (-1) /\
         Host.log l' = (Host.log l ++ [(Host.LogCritical, error_msg)])%list)) /\
     ((forall m l0, Host.log_raises Host.LogCritical m l0 = None) ->
      exists count, o = Py.Returned count) /\
     ((forall c l0, Host.call_raises c l0 = None) ->
      (forall lv m l0, Host.log_raises lv m l0 = None) ->
      o = Py.Returned (Z.of_nat (List.length ids)) /\ Host.selection l' = ids)) /\
  SelectionManager.select_all_in_filter None = (None, Py.Returned (-1)).
Proof.
  intros ids. split; [|reflexivity].
  unfold SelectionManager.select_all_in_filter, Run.on, Run.bind, Run.try_except,
    Run.selectAll, Run.selectedFeatureCount, Run.host, Run.ret, PluginLogger.info,
    PluginLogger.error, Run.logMessage.
  repeat host_step; host_reduce; fold ids.
  all: rewrite ?List.length_map.
  all: eexists _, _; (split; [reflexivity|]).
  all: (split; [reflexivity|]).
  all: (split;
        [intros count Hok;
         first [discriminate Hok
               |injection Hok as <-;
                first [left; reflexivity
                      |right; split; [subst ids; now rewrite ?List.length_map|reflexivity]]]|]).
  all: (split;
        [intros e' He';
         first [congruence
               |replace e' with e in * by congruence;
                cbv zeta; split; [reflexivity|];
                intros Hlog; first [congruence|split; reflexivity]]|]).
  all: (split; [intros Hl; try refused_but_answered; eexists; reflexivity|]).
  all: intros Hc Hl; try refused_but_answered.
  split; [|reflexivity]. subst ids. now rewrite ?List.length_map.
Qed.

Lemma select_all_in_filter_counts_witness :
  (exists l',
     SelectionManager.select_all_in_filter (Some Demo.roads_filtered)
     = (Some l', Py.Returned 2) /\
     Host.selection l' = [10; 11]) /\
  (exists l',
     SelectionManager.select_all_in_filter (host_faults := Demo.selection_refused)
       (Some Demo.roads_filtered)
     = (Some l', Py.Returned (-1)) /\
     Host.selection l' = [10; 11; 12; 13]).
Proof.
  split.
  - destruct (select_all_in_filter_counts (host_faults := Host.reliable)
                Demo.roads_filtered)
      as [(l' & o & Hrun & _ & _ & _ & _ & Hanswered) _].
    destruct (Hanswered (fun _ _ => eq_refl) (fun _ _ _ => eq_refl)) as [-> Hsel].
    exists l'. split; [exact Hrun|exact Hsel].
  - destruct (select_all_in_filter_counts (host_faults := Demo.selection_refused)
                Demo.roads_filtered)
      as [(l' & o & Hrun & _ & _ & Hrefused & _) _].
    destruct (Hrefused (Py.RuntimeError "selection refused") eq_refl) as [Hsel Hlog].
    destruct (Hlog eq_refl) as [-> _].
    exists l'. split; [exact Hrun|exact Hsel].
Defined.

(** [get_filtered_feature_ids] returns the identifiers of the features that
    an active filter lets through, in their order, and no identifier when
    there is no filter or no layer; it changes neither the filter nor the
    selection. *)
Theorem get_filtered_feature_ids_reads (l : Host.layer) :
  exists l',
    SelectionManager.get_filtered_feature_ids (Some l)
    = (Some l',
       Py.Returned
         (if String.eqb (Host.subset l) EmptyString then []
          else List.map Host.id (List.filter (Host.accepts l (Host.subset l)) (Host.data l))))
    /\ Host.subset l' = Host.subset l
    /\ Host.selection l' = Host.selection l
    /\ SelectionManager.get_filtered_feature_ids None = (None, Py.Returned []).
Proof.
  rewrite get_filtered_feature_ids_run. unfold Host.visible.
  destruct (String.eqb_spec (Host.subset l) EmptyString) as [Hs|Hs].
  - rewrite bool_decide_eq_true_2 by exact Hs. eexists. repeat split.
  - rewrite bool_decide_eq_false_2 by exact Hs. cbv zeta.
    eexists. repeat split.
Qed.

(** On every host [clear_selection] leaves the filter as it was and makes
    the one host call [removeSelection].  When the host answers it, the
    selection is empty and the answer is true; when the host refuses it,
    the selection is what it was, and the answer is false with the error
    line logged, unless the host refuses that line too, in which case the
    call raises. *)
Theorem clear_selection_on_every_host {host_faults : Host.faults} (l : Host.layer) :
  exists l' o,
    SelectionManager.clear_selection (Some l) = (Some l', o) /\
    Host.subset l' = Host.subset l /\
    Host.calls l' = (Host.calls l ++ [Host.RemoveSelection])%list /\
    (Host.call_raises Host.RemoveSelection l = None ->
     o = Py.Returned true /\ Host.selection l' = []) /\
    (forall e,
       Host.call_raises Host.RemoveSelection l = Some e ->
       let error_msg := "Error clearing selection: " ++ Py.str_of_exn e in
       Host.selection l' = Host.selection l /\
       match Host.log_raises Host.LogCritical error_msg
               (Host.record Host.RemoveSelection l) with
       | None =>
           o = Py.Returned false /\
           Host.log l' = (Host.log l ++ [(Host.LogCritical, error_msg)])%list
       | Some e' => o = Py.Raised e' /\ Host.log l' = Host.log l
       end).
Proof.
  unfold SelectionManager.clear_selection, Run.on, Run.bind, Run.try_except,
    Run.removeSelection, Run.host, Run.ret, PluginLogger.error, Run.logMessage.
  repeat host_step; host_reduce.
  all: eexists _, _; (split; [reflexivity|]).
  all: (split; [reflexivity|]).
  all: (split; [reflexivity|]).
  all: (split; [intros Hno; first [discriminate Hno|split; reflexivity]|]).
  all: intros e' He'; first [discriminate He'|injection He' as <-].
  all: cbv zeta; split; [reflexivity|].
  all: match goal with H : Host.log_raises _ _ _ = _ |- _ => rewrite H end.
  all: split; reflexivity.
Qed.

Lemma clear_selection_on_every_host_witness :
  exists l',
    SelectionManager.clear_selection (host_faults := Demo.selection_refused)
      (Some Demo.roads)
    = (Some l', Py.Returned false) /\
    Host.selection l' = [10; 11; 12; 13] /\
    Host.log l' = [(Host.LogCritical, "Error clearing selection: selection refused")].
Proof.
  destruct (clear_selection_on_every_host (host_faults := Demo.selection_refused)
              Demo.roads)
    as (l' & o & Hrun & _ & _ & _ & Hrefused).
  destruct (Hrefused (Py.RuntimeError "selection refused") eq_refl) as [Hsel [-> Hlog]].
  exists l'. split; [exact Hrun|]. split; [exact Hsel|exact Hlog].
Defined.

(** On every host [get_filtered_feature_ids] changes neither the filter nor
    the selection and makes no host call that changes the layer.  What it
    returns is no identifier or the identifiers of the features that the
    filter lets through; it raises only when the host refuses the read of
    the filter string, made before the [try], or the error line.  With a
    filter in place, when the host refuses [getFeatures] and takes the
    error line, no identifier is returned and the error is logged.  On a
    host that answers every call it returns no identifier without a
    filter, and the identifiers of the features let through with one. *)
Theorem get_filtered_feature_ids_on_every_host {host_faults : Host.faults}
    (l : Host.layer) :
  let ids := List.map Host.id (Host.visible l) in
  exists l' o made,
    SelectionManager.get_filtered_feature_ids (Some l) = (Some l', o) /\
    Host.subset l' = Host.subset l /\
    Host.selection l' = Host.selection l /\
    Host.calls l' = (Host.calls l ++ made)%list /\
    existsb Words.mutates made = false /\
    (forall found, o = Py.Returned found -> found = [] \/ found = ids) /\
    (forall e,
       o = Py.Raised e ->
       Host.call_raises Host.SubsetString l = Some e \/
       exists m l0, Host.log_raises Host.LogCritical m l0 = Some e) /\
    (Host.call_raises Host.SubsetString l = None ->
     Host.subset l <> EmptyString ->
     Host.call_raises Host.GetFeatures (Host.record Host.SubsetString l) <> None ->
     (forall m l0, Host.log_raises Host.LogCritical m l0 = None) ->
     o = Py.Returned [] /\
     exists message, Host.log l' = (Host.log l ++ [(Host.LogCritical, message)])%list) /\
    ((forall c l0, Host.call_raises c l0 = None) ->
     (forall lv m l0, Host.log_raises lv m l0 = None) ->
     o = Py.Returned (if bool_decide (Host.subset l = EmptyString) then [] else ids)).
Proof.
  intros ids.
  unfold SelectionManager.get_filtered_feature_ids, Run.on, Run.bind, Run.try_except,
    Run.subsetString, Run.getFeatures, Run.host, Run.ret, PluginLogger.info,
    PluginLogger.error, Run.logMessage.
  repeat host_step; host_reduce; fold ids.
  all: eexists _, _, _; (split; [reflexivity|]).
  all: (split; [reflexivity|]).
  all: (split; [reflexivity|]).
  all: (split;
        [cbn [Host.calls Host.record Host.logMessage];
         rewrite <- ?app_assoc; reflexivity|]).
  all: cbn [app].
  all: (split; [reflexivity|]).
  all: (split;
        [intros found Hok;
         first [discriminate Hok
               |injection Hok as <-; first [left; reflexivity|right; reflexivity]]|]).
  all: (split;
        [intros e' He';
         first [discriminate He'
               |injection He' as <-;
                first [left; reflexivity|right; eexists _, _; eassumption]]|]).
  all: split.
  all: try (intros Hc Hl; first [refused_but_answered|reflexivity]).
  all: intros Hread Hs Hget Hl.
  all: first [congruence
             |match goal with
              | H : bool_decide (_ = _) = true |- _ =>
                  apply bool_decide_eq_true in H; now destruct Hs
              end
             |refused_but_answered
             |split; [reflexivity|eexists; reflexivity]].
Qed.

Lemma get_filtered_feature_ids_on_every_host_witness :
  exists l',
    SelectionManager.get_filtered_feature_ids (Some Demo.roads_filtered)
    = (Some l', Py.Returned [10; 11]) /\
    Host.subset l' = "x" /\ Host.selection l' = [10; 11; 12; 13].
Proof.
  destruct (get_filtered_feature_ids_on_every_host (host_faults := Host.reliable)
              Demo.roads_filtered)
    as (l' & o & made & Hrun & Hsub & Hsel & _ & _ & _ & _ & _ & Hanswered).
  specialize (Hanswered (fun _ _ => eq_refl) (fun _ _ _ => eq_refl)).
  vm_compute in Hanswered.
  exists l'. split; [now rewrite Hrun, Hanswered|]. split; [exact Hsub|exact Hsel].
Defined.

(** ** Further properties: the validators *)

(** The validators that start by checking the layer report a missing or
    invalid layer first and in the words of [validate_layer], whatever the
    field, the key and the selection are. *)
Theorem validators_check_layer_first (isValid : Host.layer -> bool)
    (layer : option Host.layer) (field_name message : string) :
  Validator.validate_layer isValid layer = Validator.ValidationError message ->
  Validator.validate_layer_and_field isValid layer field_name
    = Validator.ValidationError message /\
  Validator.validate_primary_key isValid layer = Validator.ValidationError message /\
  Validator.validate_selection_exists isValid layer = Validator.ValidationError message /\
  (layer = None /\ message = "Please select a layer" \/
   exists l, layer = Some l /\ isValid l = false /\
             message = "Layer '" ++ Host.layer_name l ++ "' is not valid").
Proof.
  intros H.
  unfold Validator.validate_layer_and_field, Validator.validate_primary_key,
    Validator.validate_selection_exists.
  rewrite H. repeat split.
  unfold Validator.validate_layer in H. destruct layer as [l|].
  - right. exists l. destruct (isValid l); [discriminate H|].
    injection H as <-. now repeat split.
  - left. injection H as <-. now split.
Qed.

Lemma validators_check_layer_first_witness :
  Validator.validate_layer_and_field (fun _ => false) (Some Demo.roads) EmptyString
    = Validator.ValidationError "Layer 'roads' is not valid" /\
  Validator.validate_primary_key (fun _ => false) (Some Demo.roads)
    = Validator.ValidationError "Layer 'roads' is not valid".
Proof.
  destruct (validators_check_layer_first (fun _ => false) (Some Demo.roads)
              EmptyString "Layer 'roads' is not valid") as (H1 & H2 & _).
  - reflexivity.
  - split; [exact H1|exact H2].
Defined.

Lemma lookupField_elem_of (fields : list string) (name : string) :
  name ∈ fields -> exists j, Host.lookupField fields name = Some j.
Proof.
  induction fields as [|f fields IH]; [now rewrite elem_of_nil|].
  rewrite elem_of_cons. intros Hin. cbn [Host.lookupField].
  destruct (String.eqb_spec f name) as [_|Hne]; [now exists O|].
  destruct Hin as [->|Hin]; [congruence|].
  destruct (IH Hin) as [j ->]. now exists (S j).
Qed.

(** [validate_layer_and_field] passes exactly when there is a layer, the
    layer is valid, the field name is not empty and is the name of a field
    of the layer; and a field that has passed can be read from every
    feature of the layer without a key error. *)
Theorem validate_layer_and_field_exactly (isValid : Host.layer -> bool)
    (layer : option Host.layer) (field_name : string) :
  (Validator.validate_layer_and_field isValid layer field_name = Validator.Passed true
   <->
   exists l, layer = Some l /\ isValid l = true /\
             field_name <> EmptyString /\ field_name ∈ Host.field_names l) /\
  (forall l, layer = Some l ->
     Validator.validate_layer_and_field isValid layer field_name = Validator.Passed true ->
     forall feature : Host.feature,
     exists v, Host.feature_getitem (Host.field_names l) feature field_name
               = Py.Returned v).
Proof.
  assert (Hiff :
    Validator.validate_layer_and_field isValid layer field_name = Validator.Passed true
    <->
    exists l, layer = Some l /\ isValid l = true /\
              field_name <> EmptyString /\ field_name ∈ Host.field_names l).
  { unfold Validator.validate_layer_and_field, Validator.validate_layer,
      Validator.validate_field.
    destruct layer as [l|].
    - destruct (isValid l) eqn:Hv; cbn [negb].
      + case_bool_decide as Hf.
        * split; [discriminate|]. intros (l0 & _ & _ & Hne & _). contradiction.
        * case_bool_decide as Hin; cbn [negb].
          -- split; [|reflexivity]. intros _. now exists l.
          -- split; [discriminate|]. intros (l0 & [= <-] & _ & _ & Hin'). contradiction.
      + split; [discriminate|]. intros (l0 & [= <-] & Hv' & _). congruence.
    - split; [discriminate|]. intros (l0 & H & _). discriminate H. }
  split; [exact Hiff|].
  intros l -> Hp feature. apply Hiff in Hp as (l0 & [= <-] & _ & _ & Hin).
  unfold Host.feature_getitem.
  destruct (lookupField_elem_of _ _ Hin) as [j ->]. eauto.
Qed.

Lemma apply_filter_message_with_key (l : Host.layer) (pk_index : nat) (others : list nat)
    (l' : option Host.layer) (success : bool) (count : Z) (message : string) :
  Host.pk_attributes l = pk_index :: others ->
  SelectionManager.apply_filter_to_selection (Some l)
  = (l', Py.Returned (success, count, message)) ->
  message <> "Layer has no primary key".
Proof.
  intros Hpk. rewrite apply_filter_guards. cbv zeta. rewrite Hpk.
  destruct (Host.editable l) eqn:He; [intros [= <- <- <- <-]; discriminate|].
  destruct (Host.selected l) as [|f fs] eqn:Hsel; [intros [= <- <- <- <-]; discriminate|].
  destruct (nth_error (Host.field_names l) pk_index) as [pk_field|] eqn:Hf;
    [|intros [= <- <- <- <-]; discriminate].
  assert (Hne : Host.selected l <> []) by (rewrite Hsel; discriminate).
  rewrite (apply_filter_run l pk_index others pk_field He Hne Hpk Hf). cbv zeta.
  destruct (Words.retained _ _ _) as [|v vs]; [intros [= <- <- <- <-]; discriminate|].
  destruct (SelectionManager.value_list (v :: vs)) as [values|e];
    intros [= <- <- <- <-]; discriminate.
Qed.

(** The validator and the selection manager agree on the primary key:
    [validate_primary_key] passes exactly on a valid layer with at least
    one key attribute, and on a layer that has passed
    [apply_filter_to_selection] never answers that the layer has no primary
    key. *)
Theorem validated_key_is_accepted (isValid : Host.layer -> bool) (l : Host.layer) :
  (Validator.validate_primary_key isValid (Some l) = Validator.Passed true <->
   isValid l = true /\ Host.pk_attributes l <> []) /\
  (Validator.validate_primary_key isValid (Some l) = Validator.Passed true ->
   forall l' success count message,
     SelectionManager.apply_filter_to_selection (Some l)
     = (l', Py.Returned (success, count, message)) ->
     message <> "Layer has no primary key").
Proof.
  assert (Hiff :
    Validator.validate_primary_key isValid (Some l) = Validator.Passed true <->
    isValid l = true /\ Host.pk_attributes l <> []).
  { unfold Validator.validate_primary_key, Validator.validate_layer.
    destruct (isValid l); cbn [negb].
    - destruct (Host.pk_attributes l) as [|i rest].
      + split; [discriminate|]. now intros [_ H].
      + split; [|reflexivity]. intros _. split; [reflexivity|discriminate].
    - split; [discriminate|]. intros [H _]. discriminate H. }
  split; [exact Hiff|].
  intros Hp l' success count message Hrun. apply Hiff in Hp as [_ Hpk].
  destruct (Host.pk_attributes l) as [|i rest] eqn:E; [now destruct Hpk|].
  exact (apply_filter_message_with_key l i rest l' success count message E Hrun).
Qed.

(** On a valid layer [validate_selection_exists] returns the number of
    selected features when there are some, which is then at least 1, and
    raises when there are none. *)
Theorem validate_selection_exists_counts (isValid : Host.layer -> bool) (l : Host.layer) :
  isValid l = true ->
  Validator.validate_selection_exists isValid (Some l)
  = match Host.selection l with
    | [] => Validator.ValidationError "No features are selected"
    | _ :: _ => Validator.Passed (Z.of_nat (List.length (Host.selection l)))
    end /\
  (forall count,
     Validator.validate_selection_exists isValid (Some l) = Validator.Passed count ->
     1 <= count).
Proof.
  intros Hv.
  assert (H : Validator.validate_selection_exists isValid (Some l)
              = match Host.selection l with
                | [] => Validator.ValidationError "No features are selected"
                | _ :: _ => Validator.Passed (Z.of_nat (List.length (Host.selection l)))
                end).
  { unfold Validator.validate_selection_exists, Validator.validate_layer.
    rewrite Hv. cbn [negb].
    destruct (Host.selection l) as [|i rest]; [reflexivity|].
    destruct (Z.eqb_spec (Z.of_nat (List.length (i :: rest))) 0) as [E|_];
      [cbn [List.length] in E; lia|reflexivity]. }
  split; [exact H|]. rewrite H. intros count.
  destruct (Host.selection l) as [|i rest]; [discriminate|].
  intros [= <-]. cbn [List.length]. lia.
Qed.

Lemma validate_selection_exists_counts_witness :
  Validator.validate_selection_exists (fun _ => true) (Some Demo.roads)
  = Validator.Passed 4.
Proof.
  destruct (validate_selection_exists_counts (fun _ => true) Demo.roads eq_refl)
    as [H _].
  exact H.
Defined.

(** ** Further properties: dictionaries and highlights *)

Lemma dict_get_split {V : Type} (d : list (string * V)) (key : string) (v : V) :
  Dict.get d key = Some v ->
  exists d1 d2,
    d = (d1 ++ (key, v) :: d2)%list /\
    (key ∉ Dict.keys d1) /\
    Dict.del d key = (d1 ++ d2)%list.
Proof.
  induction d as [|[k w] d IH]; [discriminate|].
  cbn [Dict.get Dict.del]. destruct (String.eqb_spec k key) as [->|Hne].
  - intros [= ->]. exists [], d. repeat split. apply not_elem_of_nil.
  - intros Hg. destruct (IH Hg) as (d1 & d2 & -> & Hn & Hd).
    exists ((k, w) :: d1), d2. split; [reflexivity|]. split.
    + cbn. rewrite not_elem_of_cons. split; [congruence|exact Hn].
    + cbn. now rewrite Hd.
Qed.

Lemma dict_get_none {V : Type} (d : list (string * V)) (key : string) :
  Dict.get d key = None <-> key ∉ Dict.keys d.
Proof.
  induction d as [|[k w] d IH]; cbn [Dict.get Dict.keys List.map fst].
  - split; [intros _; apply not_elem_of_nil|reflexivity].
  - rewrite not_elem_of_cons. destruct (String.eqb_spec k key) as [->|Hne].
    + split; [discriminate|]. now intros [H _].
    + rewrite IH. unfold Dict.keys. split; [intros H; split; [congruence|exact H]|].
      now intros [_ H].
Qed.

Lemma dict_set_fresh {V : Type} (d : list (string * V)) (key : string) (v : V) :
  key ∉ Dict.keys d -> Dict.set d key v = (d ++ [(key, v)])%list.
Proof.
  induction d as [|[k w] d IH]; [reflexivity|].
  cbn [Dict.keys List.map fst]. rewrite not_elem_of_cons. intros [Hne Hn].
  cbn [Dict.set]. destruct (String.eqb_spec k key) as [E|_]; [congruence|].
  cbn. f_equal. now apply IH.
Qed.

Lemma dict_get_set_eq {V : Type} (d : list (string * V)) (key : string) (v : V) :
  Dict.get (Dict.set d key v) key = Some v.
Proof.
  induction d as [|[k w] d IH]; cbn [Dict.set Dict.get].
  - now rewrite String.eqb_refl.
  - destruct (String.eqb k key) eqn:E; cbn [Dict.get]; rewrite E; [reflexivity|exact IH].
Qed.

Lemma dict_get_set_ne {V : Type} (d : list (string * V)) (key other : string) (v : V) :
  other <> key -> Dict.get (Dict.set d key v) other = Dict.get d other.
Proof.
  intros Hne. induction d as [|[k w] d IH]; cbn [Dict.set Dict.get].
  - destruct (String.eqb_spec key other); [congruence|reflexivity].
  - destruct (String.eqb_spec k key) as [->|Hk]; cbn [Dict.get].
    + destruct (String.eqb_spec key other); [congruence|reflexivity].
    + now rewrite IH.
Qed.

Lemma dict_get_del_ne {V : Type} (d : list (string * V)) (key other : string) :
  other <> key -> Dict.get (Dict.del d key) other = Dict.get d other.
Proof.
  intros Hne. induction d as [|[k w] d IH]; [reflexivity|].
  cbn [Dict.del Dict.get]. destruct (String.eqb_spec k key) as [->|Hk].
  - destruct (String.eqb_spec key other); [congruence|reflexivity].
  - cbn [Dict.get]. now rewrite IH.
Qed.

Lemma filter_other_fresh (names : list string) (name : string) :
  name ∉ names ->
  List.filter (fun n => negb (String.eqb n name)) names = names.
Proof.
  induction names as [|n names IH]; [reflexivity|].
  rewrite not_elem_of_cons. intros [Hne Hn]. cbn [List.filter].
  destruct (String.eqb_spec n name); [congruence|]. cbn [negb]. now rewrite IH.
Qed.

Lemma dict_keys_del {V : Type} (d : list (string * V)) (key : string) :
  NoDup (Dict.keys d) ->
  Dict.keys (Dict.del d key)
  = List.filter (fun n => negb (String.eqb n key)) (Dict.keys d).
Proof.
  induction d as [|[k w] d IH]; [reflexivity|].
  cbn [Dict.keys List.map fst Dict.del List.filter]. rewrite list.NoDup_cons.
  intros [Hk Hnd]. destruct (String.eqb_spec k key) as [->|Hne]; cbn [negb].
  - symmetry. now apply filter_other_fresh.
  - cbn [List.map fst]. f_equal. now apply IH.
Qed.

Lemma hide_lookup {G L : Type} (i j : nat)
    (overlays : list (HighlightManager.QgsHighlight G L)) :
  HighlightManager.hide i overlays !! j
  = if decide (i = j) then HighlightManager.hidden <$> (overlays !! j)
    else overlays !! j.
Proof.
  unfold HighlightManager.hide. destruct (overlays !! i) as [h|] eqn:E.
  - destruct (decide (i = j)) as [<-|Hne].
    + rewrite list_lookup_insert_eq by (eapply lookup_lt_Some; exact E).
      now rewrite E.
    + now rewrite list_lookup_insert_ne.
  - destruct (decide (i = j)) as [<-|Hne]; [now rewrite E|reflexivity].
Qed.

Lemma hide_length {G L : Type} (i : nat)
    (overlays : list (HighlightManager.QgsHighlight G L)) :
  List.length (HighlightManager.hide i overlays) = List.length overlays.
Proof.
  unfold HighlightManager.hide. destruct (overlays !! i); [|reflexivity].
  apply length_insert.
Qed.

Lemma hide_all_lookup {G L : Type} (indexes : list nat) (j : nat)
    (overlays : list (HighlightManager.QgsHighlight G L)) (h : HighlightManager.QgsHighlight G L) :
  List.fold_left (fun os i => HighlightManager.hide i os) indexes overlays !! j = Some h ->
  HighlightManager.visible h = true ->
  (j ∉ indexes) /\ overlays !! j = Some h.
Proof.
  revert overlays. induction indexes as [|i indexes IH]; intros overlays; cbn [List.fold_left].
  - intros H _. split; [apply not_elem_of_nil|exact H].
  - intros H Hv. destruct (IH _ H Hv) as [Hn Hl].
    rewrite hide_lookup in Hl. destruct (decide (i = j)) as [<-|Hne].
    + destruct (overlays !! i) as [h0|]; [|discriminate Hl].
      injection Hl as <-. discriminate Hv.
    + split; [|exact Hl]. rewrite not_elem_of_cons. split; [congruence|exact Hn].
Qed.

Lemma dict_get_elem_of {V : Type} (d : list (string * V)) (key : string) (v : V) :
  Dict.get d key = Some v -> v ∈ Dict.values d.
Proof.
  intros Hg. destruct (dict_get_split d key v Hg) as (d1 & d2 & -> & _ & _).
  unfold Dict.values. rewrite List.map_app. cbn [List.map snd].
  rewrite elem_of_app, elem_of_cons. auto.
Qed.

Lemma dict_values_distinct {V : Type} (d : list (string * V)) (k1 k2 : string) (v : V) :
  NoDup (Dict.values d) ->
  Dict.get d k1 = Some v -> Dict.get d k2 = Some v -> k1 = k2.
Proof.
  induction d as [|[k w] d IH]; [discriminate|].
  cbn [Dict.values List.map snd Dict.get]. rewrite list.NoDup_cons. intros [Hw Hnd].
  destruct (String.eqb_spec k k1) as [E1|H1], (String.eqb_spec k k2) as [E2|H2].
  - congruence.
  - intros [= ->] H. apply dict_get_elem_of in H. contradiction.
  - intros H [= ->]. apply dict_get_elem_of in H. contradiction.
  - now apply IH.
Qed.

Lemma NoDup_without_middle {A : Type} (l1 l2 : list A) (x : A) :
  NoDup (l1 ++ x :: l2)%list -> NoDup (l1 ++ l2)%list /\ (x ∉ (l1 ++ l2)%list).
Proof.
  rewrite !NoDup_app, list.NoDup_cons. intros (H1 & H2 & H3 & H4). split.
  - split; [exact H1|]. split; [|exact H4].
    intros y Hy Hy2. apply (H2 y Hy). now right.
  - rewrite elem_of_app. intros [Hx|Hx]; [apply (H2 x Hx); now left|contradiction].
Qed.

Lemma init_consistent {G L : Type} :
  HighlightManager.consistent (@HighlightManager.init G L).
Proof.
  unfold HighlightManager.consistent, HighlightManager.init.
  cbn [HighlightManager.highlights HighlightManager.canvas Dict.keys Dict.values List.map].
  split; [apply NoDup_nil_2|]. split; [apply NoDup_nil_2|].
  intros i. rewrite elem_of_nil. split; [contradiction|].
  intros (h & H & _). rewrite lookup_nil in H. discriminate H.
Qed.

(** What removing does to a consistent manager that holds the name. *)
Lemma remove_present {G L : Type} (name : string) (i : nat)
    (self : HighlightManager.manager G L) :
  HighlightManager.consistent self ->
  Dict.get (HighlightManager.highlights self) name = Some i ->
  let after := fst (HighlightManager.remove_highlight name self) in
  HighlightManager.consistent after /\
  (name ∉ Dict.keys (HighlightManager.highlights after)) /\
  HighlightManager.highlights after = Dict.del (HighlightManager.highlights self) name /\
  HighlightManager.canvas after = HighlightManager.hide i (HighlightManager.canvas self) /\
  (i < List.length (HighlightManager.canvas self))%nat /\
  List.length (Dict.keys (HighlightManager.highlights self))
  = S (List.length (Dict.keys (HighlightManager.highlights after))).
Proof.
  intros (Hk & Hv & Hc) Hg. cbv zeta. unfold HighlightManager.remove_highlight.
  rewrite Hg. unfold HighlightManager.consistent.
  cbn [fst HighlightManager.highlights HighlightManager.canvas].
  destruct (dict_get_split _ _ _ Hg) as (d1 & d2 & Hd & Hn & Hdel).
  rewrite Hdel. rewrite Hd in Hk, Hv, Hc |- *.
  unfold Dict.keys, Dict.values in *. rewrite !List.map_app in *.
  cbn [List.map fst snd] in *.
  destruct (NoDup_without_middle _ _ _ Hk) as [Hk1 Hk2].
  destruct (NoDup_without_middle _ _ _ Hv) as [Hv1 Hv2].
  assert (Hi : exists h, HighlightManager.canvas self !! i = Some h
                         /\ HighlightManager.visible h = true).
  { apply Hc. rewrite elem_of_app, elem_of_cons. auto. }
  split; [split; [exact Hk1|split; [exact Hv1|]]|].
  - intros j. rewrite hide_lookup. split.
    + intros Hj. destruct (decide (i = j)) as [<-|Hne]; [contradiction|].
      apply Hc. rewrite elem_of_app, elem_of_cons. rewrite elem_of_app in Hj. tauto.
    + intros (h & Hl & Hvis). destruct (decide (i = j)) as [<-|Hne].
      * destruct (HighlightManager.canvas self !! i) as [h0|]; [|discriminate Hl].
        injection Hl as <-. discriminate Hvis.
      * assert (Hj : j ∈ (List.map snd d1 ++ i :: List.map snd d2)%list)
          by (apply Hc; eauto).
        rewrite elem_of_app, elem_of_cons in Hj. rewrite elem_of_app.
        destruct Hj as [?|[?|?]]; [tauto|congruence|tauto].
  - split; [exact Hk2|]. split; [reflexivity|]. split; [reflexivity|]. split.
    + destruct Hi as (h & Hl & _). eapply lookup_lt_Some. exact Hl.
    + rewrite !length_app. cbn [List.length]. lia.
Qed.

(** What adding leaves: the dictionary and the canvas of the manager once
    the old overlay of the name, if any, has been removed. *)
Lemma add_after_remove {G L : Type} (name : string) (g : G) (l : L)
    (color_arg : option HighlightManager.QColor) (width_arg : option Z)
    (self : HighlightManager.manager G L) :
  HighlightManager.consistent self ->
  let cleared := fst (HighlightManager.remove_highlight name self) in
  let created :=
    HighlightManager.Highlight g l
      (match color_arg with Some c => c | None => HighlightManager.Color 255 50 0 255 end)
      (HighlightManager.Color 0 0 0 0)
      (match width_arg with Some w => w | None => 2 end) true in
  HighlightManager.consistent cleared /\
  (name ∉ Dict.keys (HighlightManager.highlights cleared)) /\
  HighlightManager.add_highlight name g l color_arg width_arg self
  = HighlightManager.Manager
      (HighlightManager.highlights cleared
       ++ [(name, List.length (HighlightManager.canvas cleared))])%list
      (HighlightManager.canvas cleared ++ [created])%list.
Proof.
  intros Hc. cbv zeta.
  assert (H : HighlightManager.consistent
                (fst (HighlightManager.remove_highlight name self)) /\
              name ∉ Dict.keys (HighlightManager.highlights
                                  (fst (HighlightManager.remove_highlight name self)))).
  { destruct (Dict.get (HighlightManager.highlights self) name) as [i|] eqn:Hg.
    - destruct (remove_present name i self Hc Hg) as (H1 & H2 & _). now split.
    - unfold HighlightManager.remove_highlight. rewrite Hg. cbn [fst].
      split; [exact Hc|]. now apply dict_get_none. }
  destruct H as [H1 H2]. split; [exact H1|]. split; [exact H2|].
  unfold HighlightManager.add_highlight. now rewrite dict_set_fresh.
Qed.

Lemma add_consistent {G L : Type} (name : string) (g : G) (l : L)
    (color_arg : option HighlightManager.QColor) (width_arg : option Z)
    (self : HighlightManager.manager G L) :
  HighlightManager.consistent self ->
  HighlightManager.consistent
    (HighlightManager.add_highlight name g l color_arg width_arg self).
Proof.
  intros Hc.
  destruct (add_after_remove name g l color_arg width_arg self Hc)
    as ((Hk & Hv & Hvis) & Hfresh & ->).
  set (cleared := fst (HighlightManager.remove_highlight name self)) in *.
  unfold HighlightManager.consistent.
  cbn [HighlightManager.highlights HighlightManager.canvas].
  unfold Dict.keys, Dict.values in *. rewrite !List.map_app. cbn [List.map fst snd].
  assert (Hlt : forall j, j ∈ List.map snd (HighlightManager.highlights cleared) ->
                          (j < List.length (HighlightManager.canvas cleared))%nat).
  { intros j Hj. apply Hvis in Hj as (h & Hl & _). eapply lookup_lt_Some. exact Hl. }
  split; [|split].
  - apply NoDup_app. split; [exact Hk|]. split; [|apply NoDup_singleton].
    intros x Hx. rewrite list_elem_of_singleton. intros ->. contradiction.
  - apply NoDup_app. split; [exact Hv|]. split; [|apply NoDup_singleton].
    intros x Hx. rewrite list_elem_of_singleton. intros ->.
    apply Hlt in Hx. lia.
  - intros j. split.
    + rewrite elem_of_app, list_elem_of_singleton. intros [Hj| ->].
      * destruct (proj1 (Hvis j) Hj) as (h & Hl & Hh). exists h. split; [|exact Hh].
        now apply lookup_app_l_Some.
      * eexists. split; [now apply list_lookup_middle|reflexivity].
    + intros (h & Hl & Hh). rewrite elem_of_app, list_elem_of_singleton.
      apply lookup_app_Some in Hl as [Hl|[Hge Hl]].
      * left. apply Hvis. eauto.
      * right. apply lookup_lt_Some in Hl. cbn [List.length] in Hl. lia.
Qed.

Lemma remove_consistent {G L : Type} (name : string)
    (self : HighlightManager.manager G L) :
  HighlightManager.consistent self ->
  HighlightManager.consistent (fst (HighlightManager.remove_highlight name self)).
Proof.
  intros Hc. destruct (Dict.get (HighlightManager.highlights self) name) as [i|] eqn:Hg.
  - now destruct (remove_present name i self Hc Hg).
  - unfold HighlightManager.remove_highlight. now rewrite Hg.
Qed.

Lemma hide_all_length {G L : Type} (indexes : list nat)
    (overlays : list (HighlightManager.QgsHighlight G L)) :
  List.length (List.fold_left (fun os i => HighlightManager.hide i os) indexes overlays)
  = List.length overlays.
Proof.
  revert overlays. induction indexes as [|i indexes IH]; intros overlays; [reflexivity|].
  cbn [List.fold_left]. now rewrite IH, hide_length.
Qed.

Lemma clear_all_shows_nothing {G L : Type} (self : HighlightManager.manager G L)
    (j : nat) (h : HighlightManager.QgsHighlight G L) :
  HighlightManager.consistent self ->
  HighlightManager.canvas (HighlightManager.clear_all self) !! j = Some h ->
  HighlightManager.visible h = false.
Proof.
  intros (_ & _ & Hc) Hl. destruct (HighlightManager.visible h) eqn:Hv; [|reflexivity].
  unfold HighlightManager.clear_all in Hl. cbn [HighlightManager.canvas] in Hl.
  destruct (hide_all_lookup _ _ _ _ Hl Hv) as [Hn Hl0].
  exfalso. apply Hn, Hc. eauto.
Qed.

Lemma clear_all_consistent {G L : Type} (self : HighlightManager.manager G L) :
  HighlightManager.consistent self ->
  HighlightManager.consistent (HighlightManager.clear_all self).
Proof.
  intros Hc. unfold HighlightManager.consistent.
  replace (HighlightManager.highlights (HighlightManager.clear_all self))
    with (@nil (string * nat)) by reflexivity.
  cbn [Dict.keys Dict.values List.map].
  split; [apply NoDup_nil_2|]. split; [apply NoDup_nil_2|].
  intros i. rewrite elem_of_nil. split; [contradiction|].
  intros (h & Hl & Hv). rewrite (clear_all_shows_nothing self i h Hc Hl) in Hv.
  discriminate Hv.
Qed.

(** The manager stays consistent: it starts consistent, and adding,
    removing and clearing keep distinct names, one overlay of its own per
    name, and on the canvas exactly the overlays of the names shown. *)
Theorem highlights_stay_consistent {G L : Type} (name : string) (g : G) (l : L)
    (color_arg : option HighlightManager.QColor) (width_arg : option Z)
    (self : HighlightManager.manager G L) :
  HighlightManager.consistent self ->
  HighlightManager.consistent
    (HighlightManager.add_highlight name g l color_arg width_arg self) /\
  HighlightManager.consistent (fst (HighlightManager.remove_highlight name self)) /\
  HighlightManager.consistent (HighlightManager.clear_all self) /\
  HighlightManager.consistent (@HighlightManager.init G L).
Proof.
  intros Hc. split; [now apply add_consistent|]. split; [now apply remove_consistent|].
  split; [now apply clear_all_consistent|apply init_consistent].
Qed.

Lemma highlights_stay_consistent_witness :
  let one :=
    HighlightManager.add_highlight "reference" "POINT(1 2)" "roads" None None
      HighlightManager.init in
  HighlightManager.consistent
    (HighlightManager.add_highlight "reference" "POINT(3 4)" "roads" None (Some 5) one) /\
  HighlightManager.consistent (fst (HighlightManager.remove_highlight "reference" one)).
Proof.
  cbv zeta.
  destruct (highlights_stay_consistent "reference" "POINT(3 4)" "roads" None (Some 5)
              (HighlightManager.add_highlight "reference" "POINT(1 2)" "roads" None None
                 HighlightManager.init))
    as (H1 & H2 & _).
  - apply add_consistent, init_consistent.
  - split; [exact H1|exact H2].
Defined.

(** Adding under a name leaves exactly one highlight for that name, the
    new one, shown with the colour and width asked for, orange and 2 by
    default, and a transparent fill; the name moves to the end of the
    names; an overlay held before under the name is hidden; the highlights
    of the other names are as they were; and the number of names grows by
    one only when the name is new. *)
Theorem add_highlight_replaces {G L : Type} (name : string) (g : G) (l : L)
    (color_arg : option HighlightManager.QColor) (width_arg : option Z)
    (self : HighlightManager.manager G L) :
  HighlightManager.consistent self ->
  let after := HighlightManager.add_highlight name g l color_arg width_arg self in
  HighlightManager.has_highlight name after = true /\
  HighlightManager.overlay_of name after
  = Some (HighlightManager.Highlight g l
            (default (HighlightManager.Color 255 50 0 255) color_arg)
            (HighlightManager.Color 0 0 0 0) (default 2 width_arg) true) /\
  HighlightManager.get_highlight_names after
  = (List.filter (fun n => negb (String.eqb n name))
       (HighlightManager.get_highlight_names self) ++ [name])%list /\
  List.length (HighlightManager.get_highlight_names after)
  = (if HighlightManager.has_highlight name self
     then List.length (HighlightManager.get_highlight_names self)
     else S (List.length (HighlightManager.get_highlight_names self))) /\
  (forall other, other <> name ->
     HighlightManager.overlay_of other after = HighlightManager.overlay_of other self) /\
  (forall old, Dict.get (HighlightManager.highlights self) name = Some old ->
     HighlightManager.canvas after !! old
     = HighlightManager.hidden <$> (HighlightManager.canvas self !! old)).
Proof.
  intros Hc. cbv zeta.
  destruct (add_after_remove name g l color_arg width_arg self Hc)
    as (Hc1 & Hfresh & ->).
  pose proof Hc as (Hk & Hv & Hvis).
  unfold HighlightManager.has_highlight, HighlightManager.overlay_of,
    HighlightManager.get_highlight_names, Dict.contains.
  cbn [HighlightManager.highlights HighlightManager.canvas].
  rewrite <- (dict_set_fresh _ _ _ Hfresh).
  rewrite dict_get_set_eq.
  split; [reflexivity|].
  split; [destruct color_arg, width_arg; now apply list_lookup_middle|].
  rewrite (dict_set_fresh _ _ _ Hfresh).
  unfold Dict.keys at 1 3. rewrite !List.map_app, !length_app. cbn [List.map fst List.length].
  fold (Dict.keys (HighlightManager.highlights
                     (fst (HighlightManager.remove_highlight name self)))).
  destruct (Dict.get (HighlightManager.highlights self) name) as [i|] eqn:Hg.
  - destruct (remove_present name i self Hc Hg) as (_ & _ & Hd & Hcv & Hlt & Hlen).
    cbv zeta in Hd, Hcv, Hlen. rewrite Hd, Hcv.
    split; [now rewrite dict_keys_del|].
    split; [rewrite Hlen, Hd; lia|].
    split.
    + intros other Hne. rewrite <- (dict_set_fresh _ _ _ (eq_ind _ (fun d => name ∉ Dict.keys d) Hfresh _ Hd)).
      rewrite dict_get_set_ne by exact Hne. rewrite dict_get_del_ne by exact Hne.
      destruct (Dict.get (HighlightManager.highlights self) other) as [j|] eqn:Hj;
        [|reflexivity].
      assert (Hjl : (j < List.length (HighlightManager.canvas self))%nat).
      { apply dict_get_elem_of, Hvis in Hj as (h & Hl & _).
        eapply lookup_lt_Some. exact Hl. }
      rewrite lookup_app_l by (rewrite hide_length; exact Hjl).
      rewrite hide_lookup. destruct (decide (i = j)) as [<-|_]; [|reflexivity].
      exfalso. apply Hne. exact (dict_values_distinct _ _ _ _ Hv Hj Hg).
    + intros old [= <-].
      rewrite lookup_app_l by (rewrite hide_length; exact Hlt).
      rewrite hide_lookup. now destruct (decide (i = i)).
  - assert (Hsame : fst (HighlightManager.remove_highlight name self) = self).
    { unfold HighlightManager.remove_highlight. now rewrite Hg. }
    rewrite Hsame in *.
    split; [now rewrite filter_other_fresh|].
    split; [lia|].
    split; [|discriminate].
    intros other Hne. rewrite <- (dict_set_fresh _ _ _ Hfresh).
    rewrite dict_get_set_ne by exact Hne.
    destruct (Dict.get (HighlightManager.highlights self) other) as [j|] eqn:Hj;
      [|reflexivity].
    apply lookup_app_l.
    apply dict_get_elem_of, Hvis in Hj as (h & Hl & _).
    eapply lookup_lt_Some. exact Hl.
Qed.

Lemma add_highlight_replaces_witness :
  let one :=
    HighlightManager.add_highlight "reference" "POINT(1 2)" "roads" None None
      HighlightManager.init in
  let two :=
    HighlightManager.add_highlight "reference" "POINT(3 4)" "roads" None (Some 5) one in
  HighlightManager.get_highlight_names two = ["reference"] /\
  HighlightManager.overlay_of "reference" two
  = Some (HighlightManager.Highlight "POINT(3 4)" "roads"
            (HighlightManager.Color 255 50 0 255)
            (HighlightManager.Color 0 0 0 0) 5 true) /\
  HighlightManager.canvas two !! 0%nat
  = Some (HighlightManager.Highlight "POINT(1 2)" "roads"
            (HighlightManager.Color 255 50 0 255)
            (HighlightManager.Color 0 0 0 0) 2 false).
Proof.
  cbv zeta.
  destruct (add_highlight_replaces "reference" "POINT(3 4)" "roads" None (Some 5)
              (HighlightManager.add_highlight "reference" "POINT(1 2)" "roads" None None
                 HighlightManager.init))
    as (_ & Hov & Hnames & _ & _ & Hold).
  - apply add_consistent, init_consistent.
  - split; [rewrite Hnames; reflexivity|]. split; [exact Hov|].
    rewrite (Hold 0%nat eq_refl). reflexivity.
Defined.

(** Removing answers whether the name had a highlight.  Afterwards the
    name has none and the other names keep theirs, in their order; the
    overlay that was held under the name is hidden; and removing again
    answers false and changes nothing. *)
Theorem remove_highlight_idempotent {G L : Type} (name : string)
    (self : HighlightManager.manager G L) :
  HighlightManager.consistent self ->
  let after := fst (HighlightManager.remove_highlight name self) in
  snd (HighlightManager.remove_highlight name self)
    = HighlightManager.has_highlight name self /\
  HighlightManager.has_highlight name after = false /\
  HighlightManager.remove_highlight name after = (after, false) /\
  HighlightManager.get_highlight_names after
  = List.filter (fun n => negb (String.eqb n name))
      (HighlightManager.get_highlight_names self) /\
  (forall other, other <> name ->
     HighlightManager.has_highlight other after
     = HighlightManager.has_highlight other self) /\
  (forall old, Dict.get (HighlightManager.highlights self) name = Some old ->
     HighlightManager.canvas after !! old
     = HighlightManager.hidden <$> (HighlightManager.canvas self !! old)).
Proof.
  intros Hc. cbv zeta. pose proof Hc as (Hk & _ & _).
  unfold HighlightManager.has_highlight, HighlightManager.get_highlight_names,
    Dict.contains.
  destruct (Dict.get (HighlightManager.highlights self) name) as [i|] eqn:Hg.
  - destruct (remove_present name i self Hc Hg) as (_ & Hfresh & Hd & Hcv & _ & _).
    cbv zeta in Hfresh, Hd, Hcv.
    apply dict_get_none in Hfresh.
    assert (Hsnd : snd (HighlightManager.remove_highlight name self) = true).
    { unfold HighlightManager.remove_highlight. now rewrite Hg. }
    rewrite Hsnd, Hfresh. split; [reflexivity|]. split; [reflexivity|].
    split; [unfold HighlightManager.remove_highlight at 1; now rewrite Hfresh|].
    rewrite Hd, Hcv. split; [now apply dict_keys_del|].
    split.
    + intros other Hne. now rewrite dict_get_del_ne.
    + intros old [= <-]. rewrite hide_lookup. now destruct (decide (i = i)).
  - assert (Hsame : HighlightManager.remove_highlight name self = (self, false)).
    { unfold HighlightManager.remove_highlight. now rewrite Hg. }
    rewrite Hsame. cbn [fst snd]. rewrite Hg, Hsame.
    split; [reflexivity|]. split; [reflexivity|]. split; [reflexivity|].
    split; [|split; [reflexivity|discriminate]].
    symmetry. apply filter_other_fresh. now apply dict_get_none.
Qed.

Lemma remove_highlight_idempotent_witness :
  let one :=
    HighlightManager.add_highlight "hover" "POINT(5 6)" "roads" None None
      (HighlightManager.add_highlight "reference" "POINT(1 2)" "roads" None None
         HighlightManager.init) in
  let after := fst (HighlightManager.remove_highlight "reference" one) in
  snd (HighlightManager.remove_highlight "reference" one) = true /\
  HighlightManager.get_highlight_names after = ["hover"] /\
  HighlightManager.remove_highlight "reference" after = (after, false).
Proof.
  cbv zeta.
  destruct (remove_highlight_idempotent "reference"
              (HighlightManager.add_highlight "hover" "POINT(5 6)" "roads" None None
                 (HighlightManager.add_highlight "reference" "POINT(1 2)" "roads" None None
                    HighlightManager.init)))
    as (Hsnd & _ & Hagain & Hnames & _).
  - apply add_consistent, add_consistent, init_consistent.
  - split; [rewrite Hsnd; reflexivity|]. split; [rewrite Hnames; reflexivity|].
    exact Hagain.
Defined.

(** Clearing leaves no name and no overlay shown: every overlay that the
    canvas has received is hidden, none is lost, and no name has a
    highlight any more. *)
Theorem clear_all_hides_everything {G L : Type} (self : HighlightManager.manager G L) :
  HighlightManager.consistent self ->
  let after := HighlightManager.clear_all self in
  HighlightManager.get_highlight_names after = [] /\
  (forall name, HighlightManager.has_highlight name after = false) /\
  List.length (HighlightManager.canvas after)
  = List.length (HighlightManager.canvas self) /\
  (forall j h, HighlightManager.canvas after !! j = Some h ->
               HighlightManager.visible h = false).
Proof.
  intros Hc. cbv zeta. split; [reflexivity|]. split; [reflexivity|].
  split; [apply hide_all_length|].
  intros j h. now apply clear_all_shows_nothing.
Qed.

Lemma clear_all_hides_everything_witness :
  let two :=
    HighlightManager.add_highlight "hover" "POINT(5 6)" "roads" None None
      (HighlightManager.add_highlight "reference" "POINT(1 2)" "roads" None None
         HighlightManager.init) in
  HighlightManager.get_highlight_names (HighlightManager.clear_all two) = [] /\
  List.length (HighlightManager.canvas (HighlightManager.clear_all two)) = 2%nat.
Proof.
  cbv zeta.
  destruct (clear_all_hides_everything
              (HighlightManager.add_highlight "hover" "POINT(5 6)" "roads" None None
                 (HighlightManager.add_highlight "reference" "POINT(1 2)" "roads" None None
                    HighlightManager.init)))
    as (Hnames & _ & Hlen & _).
  - apply add_consistent, add_consistent, init_consistent.
  - split; [exact Hnames|]. rewrite Hlen. reflexivity.
Defined.

